(** * face_verifier: the verification decision pipeline of [verify.js]

    A shallow embedding of [verify.js] and the properties of its crop
    geometry, its match decision, its confidence value and its fail-fast
    orchestration.

    Numbers.  A JavaScript number is modelled as an exact rational ([Q]):
    [+], [-], [*], [/] are the field operations, [<] is the order of the
    rationals, [Math.max], [Math.min] and [Math.floor] are the usual
    functions.  The rounding of binary64, [NaN] and the infinities are not
    modelled; the theorems below are statements about exact arithmetic.
    Where rounding decides a property, the expression of the source is also
    given on binary64 numbers ([Binary64]), and the property is stated so
    that it holds of the rounded computation too.

    Effects.  [fs], [canvas], [faceapi], [path] and the clock are
    collaborators of the program.  The file system is a finite map from
    paths to contents, every call of a collaborator that the properties
    speak about is recorded in an event log, and a [throw] ends the run
    and keeps the world as it was at that point. *)

From Stdlib Require Import ZArith QArith Qminmax Qround Qabs Lqa Lia String List.
From Stdlib Require Import DecimalString Reals Ascii.
From Stdlib Require Floats.
From stdpp Require Import gmap strings.

Local Open Scope Q_scope.

(** ** JavaScript numbers *)

(** [a < b] on numbers. *)
Definition Qltb (a b : Q) : bool := negb (Qle_bool b a).

(** A number without a fractional part. *)
Definition is_integer (q : Q) : Prop := inject_Z (Qfloor q) == q.

Module Math.
Definition max (a b : Q) : Q := Qmax a b.
Definition min (a b : Q) : Q := Qmin a b.
Definition floor (q : Q) : Q := inject_Z (Qfloor q).
End Math.

(** ** Data model *)

(** [CONFIG]; [baseOutputDir] is read by [createTimestampedDirectory] only,
    which runs before the pipeline; it is the definition [baseOutputDir] of
    the host process below. *)
Record Config := {
  distanceThreshold : Q;
  zoomOutFactor : Q;
  faceQuality : Q
}.

Definition CONFIG : Config := {|
  distanceThreshold := 6 # 10;
  zoomOutFactor := 3 # 10;
  faceQuality := 8 # 10
|}.

(** [{x, y, width, height}] *)
Module Box.
Record t := mk { x : Q; y : Q; width : Q; height : Q }.
End Box.

(** The BoundingBox invariant of a box inside an image. *)
Definition BoundingBox (box : Box.t) (imageWidth imageHeight : Q) : Prop :=
  0 <= Box.x box /\ 0 <= Box.y box /\
  0 < Box.width box /\ 0 < Box.height box /\
  Box.x box + Box.width box <= imageWidth /\
  Box.y box + Box.height box <= imageHeight.

(** The coordinates of a box are whole numbers. *)
Definition IntegerBox (box : Box.t) : Prop :=
  is_integer (Box.x box) /\ is_integer (Box.y box) /\
  is_integer (Box.width box) /\ is_integer (Box.height box).

(** ** Geometry: [calculateZoomedOutBox] *)

Definition calculateZoomedOutBox
    (box : Box.t) (zoomFactor imageWidth imageHeight : Q) : Box.t :=
  let x := Box.x box in
  let y := Box.y box in
  let width := Box.width box in
  let height := Box.height box in
  let zoomOutX := width * zoomFactor in
  let zoomOutY := height * zoomFactor in
  let newX := Math.max 0 (x - zoomOutX / 2) in
  let newY := Math.max 0 (y - zoomOutY / 2) in
  let newWidth := Math.min (imageWidth - newX) (width + zoomOutX) in
  let newHeight := Math.min (imageHeight - newY) (height + zoomOutY) in
  {| Box.x := Math.floor newX;
     Box.y := Math.floor newY;
     Box.width := Math.floor newWidth;
     Box.height := Math.floor newHeight |}.

(** One axis of [calculateZoomedOutBox]: origin and extent before the
    truncation. *)
Definition axisOrigin (x width zoomFactor : Q) : Q :=
  Math.max 0 (x - width * zoomFactor / 2).

Definition axisExtent (x width zoomFactor imageWidth : Q) : Q :=
  Math.min (imageWidth - axisOrigin x width zoomFactor)
           (width + width * zoomFactor).

(** ** Collaborator data *)

(** Encoded bytes: the content of an image file, the result of
    [canvas.toBuffer]. *)
Definition Buffer := string.

(** A face descriptor, the vector [faceapi] attaches to a detection. *)
Definition Descriptor := list Q.

Module Point.
Record t := mk { x : Q; y : Q }.
End Point.

(** A decoded image, as [canvas.loadImage] returns it. *)
Module Image.
Record t := mk { width : Q; height : Q; pixels : Buffer }.
End Image.

(** [result.detection]: the raw box and the score of the detector. *)
Module Detection.
Record t := mk { box : Box.t; score : Q }.
End Detection.

(** What [detectSingleFace(..).withFaceLandmarks().withFaceDescriptor()]
    resolves to when a face was found. *)
Module FaceResult.
Record t := mk {
  detection : Detection.t;
  landmarks : option (list Point.t);
  descriptor : Descriptor
}.
End FaceResult.

(** ** Records of the program *)

(** The value [extractAndSaveFace] returns. *)
Module FaceData.
Record t := mk {
  filename : string;
  path : string;
  coordinates : Box.t;
  detectionScore : Q
}.
End FaceData.

Module Dimensions.
Record t := mk { width : Q; height : Q }.
End Dimensions.

(** [referenceData] and [queryData], the arguments of
    [generateVerificationReport]. *)
Module ImageData.
Record t := mk {
  imagePath : string;
  faceDetected : bool;
  detectionScore : Q;
  faceFile : string;
  coordinates : Box.t;
  imageDimensions : Dimensions.t
}.
End ImageData.

(** [report.result] *)
Module Result.
Record t := mk {
  isMatch : bool;
  faceDistance : Q;
  threshold : Q;
  confidence : Q;
  status : string
}.
End Result.

(** [report.referenceImage] and [report.queryImage] *)
Module ImageSection.
Record t := mk {
  filename : string;
  faceDetected : bool;
  detectionScore : Q;
  faceFile : string;
  coordinates : Box.t;
  imageDimensions : Dimensions.t
}.
End ImageSection.

Module Report.
Record t := mk {
  verificationId : string;
  timestamp : string;
  result : Result.t;
  referenceImage : ImageSection.t;
  queryImage : ImageSection.t;
  outputDirectory : string
}.
End Report.

(** The value [runVerification] resolves to. *)
Module Verification.
Record t := mk {
  isMatch : bool;
  faceDistance : Q;
  confidence : Q;
  referenceScore : Q;
  queryScore : Q;
  reportPath : string;
  referenceFace : string;
  queryFace : string;
  outputDir : string
}.
End Verification.

(** ** The world: file system, clock, log of collaborator calls *)

(** A file holds encoded image bytes or the JSON text of a report; the text
    [JSON.stringify(report, null, 2)] is kept as the report it prints. *)
Inductive FileData :=
| ImageFile (buffer : Buffer)
| JsonFile (report : Report.t).

Inductive Event :=
| LoadImage (path : string)
| DetectSingleFace (image : Image.t)
| WriteFile (path : string).

Record World := {
  files : gmap string FileData;
  clock : Z;
  events : list Event
}.

(** Every [throw] of [runVerification], and the exceptions of the
    collaborators. *)
Inductive Error :=
| ReferenceImageNotFound (path : string)
| QueryImageNotFound (path : string)
| NoFaceInReference
| NoFaceInQuery
| LowScoreReference (score : Q)
| LowScoreQuery (score : Q)
| CollaboratorError (message : string).

(** A computation of the program: it reads and changes the world and
    returns a value or throws. *)
Definition M (A : Type) : Type := World -> (Error + A) * World.

#[global] Instance M_ret : MRet M := fun A (a : A) w => (inr a, w).

#[global] Instance M_bind : MBind M := fun A B (k : A -> M B) (m : M A) w =>
  match m w with
  | (inl e, w') => (inl e, w')
  | (inr a, w') => k a w'
  end.

Definition throw {A : Type} (e : Error) : M A := fun w => (inl e, w).

Definition log (ev : Event) (w : World) : World :=
  {| files := files w; clock := clock w; events := events w ++ [ev] |}.

(** The world after a file was written. *)
Definition write (p : string) (data : FileData) (w : World) : World :=
  {| files := <[p := data]> (files w);
     clock := clock w;
     events := events w ++ [WriteFile p] |}.

(** What the program takes from its libraries and its host. *)
Record Env := {
  path_join : string -> string -> string;
  path_basename : string -> string;
  (** a number inside a template literal *)
  Number_toString : Q -> string;
  (** [new Date(ms).toISOString()] *)
  toISOString : Z -> string;
  (** the decoder behind [canvas.loadImage] *)
  decodeImage : Buffer -> option Image.t;
  (** [faceapi.detectSingleFace(image).withFaceLandmarks().withFaceDescriptor()] *)
  detectSingleFace : Image.t -> option FaceResult.t;
  (** [faceapi.euclideanDistance] *)
  euclideanDistance : Descriptor -> Descriptor -> Q;
  (** [createCanvas], [drawImage] of the source rectangle, [toBuffer] *)
  cropToJpeg : Image.t -> Box.t -> Buffer;
  (** the drawing calls of [drawFaceDetection] and [toBuffer] *)
  overlayToJpeg : Image.t -> FaceResult.t -> Buffer;
  (** whether [fs.writeFileSync] succeeds at a path *)
  writable : string -> bool
}.

Section Pipeline.

Variable cfg : Config.
Variable env : Env.

Definition message (e : Error) : string :=
  match e with
  | ReferenceImageNotFound p => "Reference image not found: " +:+ p
  | QueryImageNotFound p => "Query image not found: " +:+ p
  | NoFaceInReference => "Could not detect a face in the reference image"
  | NoFaceInQuery => "Could not detect a face in the query image"
  | LowScoreReference s =>
      "Low detection score in reference image: " +:+ Number_toString env s
  | LowScoreQuery s =>
      "Low detection score in query image: " +:+ Number_toString env s
  | CollaboratorError m => m
  end.

(** *** Collaborator calls *)

Definition fs_existsSync (p : string) : M bool := fun w =>
  (inr (match files w !! p with Some _ => true | None => false end), w).

Definition fs_writeFileSync (p : string) (data : FileData) : M unit := fun w =>
  if writable env p then (inr tt, write p data w)
  else (inl (CollaboratorError ("EACCES: " +:+ p)), w).

(** [canvas.loadImage]: reads the file and decodes it; it rejects when the
    file cannot be read or does not hold an image. *)
Definition decodeFile (p : string) (file : option FileData) : Error + Image.t :=
  match file with
  | Some (ImageFile buffer) =>
      match decodeImage env buffer with
      | Some image => inr image
      | None => inl (CollaboratorError "Unsupported image type")
      end
  | Some (JsonFile _) => inl (CollaboratorError "Unsupported image type")
  | None => inl (CollaboratorError ("ENOENT: " +:+ p))
  end.

Definition canvas_loadImage (p : string) : M Image.t := fun w =>
  (decodeFile p (files w !! p), log (LoadImage p) w).

Definition faceapi_detectSingleFace (image : Image.t)
  : M (option FaceResult.t) := fun w =>
  (inr (detectSingleFace env image), log (DetectSingleFace image) w).

Definition Date_now : M Z := fun w => (inr (clock w), w).

(** *** The functions of [verify.js] *)

Definition extractAndSaveFace (image : Image.t) (detection : FaceResult.t)
    (imageName outputDir : string) : M FaceData.t :=
  let imageWidth := Image.width image in
  let imageHeight := Image.height image in
  let zoomedBox :=
    calculateZoomedOutBox
      (Detection.box (FaceResult.detection detection))
      (zoomOutFactor cfg) imageWidth imageHeight in
  let faceFilename := "face_" +:+ imageName +:+ ".jpg" in
  let facePath := path_join env outputDir faceFilename in
  let buffer := cropToJpeg env image zoomedBox in
  fs_writeFileSync facePath (ImageFile buffer);;
  mret {| FaceData.filename := faceFilename;
          FaceData.path := facePath;
          FaceData.coordinates := zoomedBox;
          FaceData.detectionScore :=
            Detection.score (FaceResult.detection detection) |}.

Definition generateVerificationReport (referenceData queryData : ImageData.t)
    (faceDistance : Q) (isMatch : bool) (outputDir : string) : M Report.t :=
  now ← Date_now;
  let timestamp := toISOString env now in
  now' ← Date_now;
  let reportId := "verify_" +:+ Number_toString env (inject_Z now') in
  mret {|
    Report.verificationId := reportId;
    Report.timestamp := timestamp;
    Report.result := {|
      Result.isMatch := isMatch;
      Result.faceDistance := faceDistance;
      Result.threshold := distanceThreshold cfg;
      Result.confidence :=
        Math.max 0 (1 - faceDistance / distanceThreshold cfg);
      Result.status := if isMatch then "VERIFIED" else "REJECTED"
    |};
    Report.referenceImage := {|
      ImageSection.filename :=
        path_basename env (ImageData.imagePath referenceData);
      ImageSection.faceDetected := ImageData.faceDetected referenceData;
      ImageSection.detectionScore := ImageData.detectionScore referenceData;
      ImageSection.faceFile := ImageData.faceFile referenceData;
      ImageSection.coordinates := ImageData.coordinates referenceData;
      ImageSection.imageDimensions := ImageData.imageDimensions referenceData
    |};
    Report.queryImage := {|
      ImageSection.filename :=
        path_basename env (ImageData.imagePath queryData);
      ImageSection.faceDetected := ImageData.faceDetected queryData;
      ImageSection.detectionScore := ImageData.detectionScore queryData;
      ImageSection.faceFile := ImageData.faceFile queryData;
      ImageSection.coordinates := ImageData.coordinates queryData;
      ImageSection.imageDimensions := ImageData.imageDimensions queryData
    |};
    Report.outputDirectory := path_basename env outputDir
  |}.

Definition saveVerificationReport (report : Report.t) (outputDir : string)
  : M string :=
  let reportPath :=
    path_join env outputDir (Report.verificationId report +:+ ".json") in
  fs_writeFileSync reportPath (JsonFile report);;
  mret reportPath.

Definition drawFaceDetection (image : Image.t) (detection : FaceResult.t)
    (outputPath : string) : M unit :=
  let buffer := overlayToJpeg env image detection in
  fs_writeFileSync outputPath (ImageFile buffer).

Definition runVerification (referenceImagePath queryImagePath outputDir : string)
  : M Verification.t :=
  referenceExists ← fs_existsSync referenceImagePath;
  if negb referenceExists
  then throw (ReferenceImageNotFound referenceImagePath) else
  queryExists ← fs_existsSync queryImagePath;
  if negb queryExists then throw (QueryImageNotFound queryImagePath) else
  referenceImage ← canvas_loadImage referenceImagePath;
  queryImage ← canvas_loadImage queryImagePath;
  referenceResult ← faceapi_detectSingleFace referenceImage;
  queryResult ← faceapi_detectSingleFace queryImage;
  match referenceResult with
  | None => throw NoFaceInReference
  | Some referenceResult =>
  match queryResult with
  | None => throw NoFaceInQuery
  | Some queryResult =>
  let referenceScore := Detection.score (FaceResult.detection referenceResult) in
  let queryScore := Detection.score (FaceResult.detection queryResult) in
  if Qltb referenceScore (faceQuality cfg)
  then throw (LowScoreReference referenceScore) else
  if Qltb queryScore (faceQuality cfg)
  then throw (LowScoreQuery queryScore) else
  let faceDistance :=
    euclideanDistance env (FaceResult.descriptor referenceResult)
                          (FaceResult.descriptor queryResult) in
  let isMatch := Qltb faceDistance (distanceThreshold cfg) in
  referenceFaceData ←
    extractAndSaveFace referenceImage referenceResult "reference" outputDir;
  queryFaceData ←
    extractAndSaveFace queryImage queryResult "query" outputDir;
  drawFaceDetection referenceImage referenceResult
    (path_join env outputDir "reference_detection.jpg");;
  drawFaceDetection queryImage queryResult
    (path_join env outputDir "query_detection.jpg");;
  reportData ←
    generateVerificationReport
      {| ImageData.imagePath := referenceImagePath;
         ImageData.faceDetected := true;
         ImageData.detectionScore := referenceScore;
         ImageData.faceFile := FaceData.filename referenceFaceData;
         ImageData.coordinates := FaceData.coordinates referenceFaceData;
         ImageData.imageDimensions :=
           {| Dimensions.width := Image.width referenceImage;
              Dimensions.height := Image.height referenceImage |} |}
      {| ImageData.imagePath := queryImagePath;
         ImageData.faceDetected := true;
         ImageData.detectionScore := queryScore;
         ImageData.faceFile := FaceData.filename queryFaceData;
         ImageData.coordinates := FaceData.coordinates queryFaceData;
         ImageData.imageDimensions :=
           {| Dimensions.width := Image.width queryImage;
              Dimensions.height := Image.height queryImage |} |}
      faceDistance isMatch outputDir;
  reportPath ← saveVerificationReport reportData outputDir;
  mret {| Verification.isMatch := isMatch;
          Verification.faceDistance := faceDistance;
          Verification.confidence :=
            Result.confidence (Report.result reportData);
          Verification.referenceScore := referenceScore;
          Verification.queryScore := queryScore;
          Verification.reportPath := reportPath;
          Verification.referenceFace := FaceData.filename referenceFaceData;
          Verification.queryFace := FaceData.filename queryFaceData;
          Verification.outputDir := outputDir |}
  end end.

End Pipeline.

(** ** The confidence on binary64 numbers

    [Math.max(0, 1 - faceDistance / CONFIG.distanceThreshold)] as the
    program computes it: every operation rounds to the nearest binary64
    number. *)

Module Binary64.
Import Floats.

(** [Math.max] of two numbers: [NaN] when one of them is, and [+0] above
    [-0]. *)
Definition Math_max (a b : float) : float :=
  if (is_nan a || is_nan b)%bool then nan
  else if (a <? b)%float then b
  else if (b <? a)%float then a
  else if (is_zero a && get_sign a)%bool then b else a.

Definition confidence (faceDistance threshold : float) : float :=
  Math_max 0%float (1 - faceDistance / threshold)%float.

(** The binary64 number that the literal [0.6] of [CONFIG] denotes. *)
Definition distanceThreshold : float := 0x1.3333333333333p-1%float.

End Binary64.

(** ** The paths of a run

    The statements below name the intermediate values of [runVerification];
    these definitions spell them out. *)

Section Outcomes.

Variable cfg : Config.
Variable env : Env.

(** No file of [w'] holds a report that [w] did not already hold there. *)
Definition no_new_report (w w' : World) : Prop :=
  forall p r,
    files w' !! p = Some (JsonFile r) -> files w !! p = Some (JsonFile r).

(** The crop rectangle [extractAndSaveFace] computes. *)
Definition zoomedBox (image : Image.t) (detection : FaceResult.t) : Box.t :=
  calculateZoomedOutBox
    (Detection.box (FaceResult.detection detection))
    (zoomOutFactor cfg) (Image.width image) (Image.height image).

Definition faceFilename (imageName : string) : string :=
  "face_" +:+ imageName +:+ ".jpg".

(** The object literal [runVerification] passes to
    [generateVerificationReport] for one image. *)
Definition imageData (imagePath : string) (image : Image.t)
    (detection : FaceResult.t) (imageName : string) : ImageData.t :=
  {| ImageData.imagePath := imagePath;
     ImageData.faceDetected := true;
     ImageData.detectionScore :=
       Detection.score (FaceResult.detection detection);
     ImageData.faceFile := faceFilename imageName;
     ImageData.coordinates := zoomedBox image detection;
     ImageData.imageDimensions :=
       {| Dimensions.width := Image.width image;
          Dimensions.height := Image.height image |} |}.

(** The world once both images were loaded and both detections ran. *)
Definition detected (referenceImagePath queryImagePath : string)
    (referenceImage queryImage : Image.t) (w : World) : World :=
  log (DetectSingleFace queryImage)
    (log (DetectSingleFace referenceImage)
       (log (LoadImage queryImagePath)
          (log (LoadImage referenceImagePath) w))).

(** The world once both crops and both overlays were written. *)
Definition rendered (outputDir : string) (referenceImage queryImage : Image.t)
    (referenceResult queryResult : FaceResult.t) (w : World) : World :=
  write (path_join env outputDir "query_detection.jpg")
        (ImageFile (overlayToJpeg env queryImage queryResult))
    (write (path_join env outputDir "reference_detection.jpg")
           (ImageFile (overlayToJpeg env referenceImage referenceResult))
       (write (path_join env outputDir (faceFilename "query"))
              (ImageFile
                 (cropToJpeg env queryImage (zoomedBox queryImage queryResult)))
          (write (path_join env outputDir (faceFilename "reference"))
                 (ImageFile
                    (cropToJpeg env referenceImage
                       (zoomedBox referenceImage referenceResult)))
             w))).

(** The four image files of a run. *)
Definition artifactPaths (outputDir : string) : list string :=
  [ path_join env outputDir (faceFilename "reference");
    path_join env outputDir (faceFilename "query");
    path_join env outputDir "reference_detection.jpg";
    path_join env outputDir "query_detection.jpg" ].

(** Both images were read and decoded, a face was found in each, and both
    scores passed the quality gate. *)
Record GatesPassed (w : World) (referenceImagePath queryImagePath : string)
    (referenceImage queryImage : Image.t)
    (referenceResult queryResult : FaceResult.t) : Prop := {
  reference_loaded :
    decodeFile env referenceImagePath (files w !! referenceImagePath)
    = inr referenceImage;
  query_loaded :
    decodeFile env queryImagePath (files w !! queryImagePath) = inr queryImage;
  reference_face : detectSingleFace env referenceImage = Some referenceResult;
  query_face : detectSingleFace env queryImage = Some queryResult;
  reference_quality :
    Qltb (Detection.score (FaceResult.detection referenceResult))
         (faceQuality cfg) = false;
  query_quality :
    Qltb (Detection.score (FaceResult.detection queryResult))
         (faceQuality cfg) = false
}.

(** Every way a run of [runVerification] can end, in the order of its
    stages. *)
Inductive Outcome (referenceImagePath queryImagePath outputDir : string)
    (w : World) : (Error + Verification.t) * World -> Prop :=
| reference_missing :
    files w !! referenceImagePath = None ->
    Outcome referenceImagePath queryImagePath outputDir w
      (inl (ReferenceImageNotFound referenceImagePath), w)
| query_missing :
    files w !! referenceImagePath <> None ->
    files w !! queryImagePath = None ->
    Outcome referenceImagePath queryImagePath outputDir w
      (inl (QueryImageNotFound queryImagePath), w)
| reference_unreadable (m : string) :
    files w !! referenceImagePath <> None ->
    files w !! queryImagePath <> None ->
    decodeFile env referenceImagePath (files w !! referenceImagePath)
    = inl (CollaboratorError m) ->
    Outcome referenceImagePath queryImagePath outputDir w
      (inl (CollaboratorError m), log (LoadImage referenceImagePath) w)
| query_unreadable (referenceImage : Image.t) (m : string) :
    decodeFile env referenceImagePath (files w !! referenceImagePath)
    = inr referenceImage ->
    files w !! queryImagePath <> None ->
    decodeFile env queryImagePath (files w !! queryImagePath)
    = inl (CollaboratorError m) ->
    Outcome referenceImagePath queryImagePath outputDir w
      (inl (CollaboratorError m),
       log (LoadImage queryImagePath) (log (LoadImage referenceImagePath) w))
| reference_without_face (referenceImage queryImage : Image.t) :
    decodeFile env referenceImagePath (files w !! referenceImagePath)
    = inr referenceImage ->
    decodeFile env queryImagePath (files w !! queryImagePath)
    = inr queryImage ->
    detectSingleFace env referenceImage = None ->
    Outcome referenceImagePath queryImagePath outputDir w
      (inl NoFaceInReference,
       detected referenceImagePath queryImagePath referenceImage queryImage w)
| query_without_face (referenceImage queryImage : Image.t)
    (referenceResult : FaceResult.t) :
    decodeFile env referenceImagePath (files w !! referenceImagePath)
    = inr referenceImage ->
    decodeFile env queryImagePath (files w !! queryImagePath)
    = inr queryImage ->
    detectSingleFace env referenceImage = Some referenceResult ->
    detectSingleFace env queryImage = None ->
    Outcome referenceImagePath queryImagePath outputDir w
      (inl NoFaceInQuery,
       detected referenceImagePath queryImagePath referenceImage queryImage w)
| reference_low_score (referenceImage queryImage : Image.t)
    (referenceResult queryResult : FaceResult.t) :
    decodeFile env referenceImagePath (files w !! referenceImagePath)
    = inr referenceImage ->
    decodeFile env queryImagePath (files w !! queryImagePath)
    = inr queryImage ->
    detectSingleFace env referenceImage = Some referenceResult ->
    detectSingleFace env queryImage = Some queryResult ->
    Qltb (Detection.score (FaceResult.detection referenceResult))
         (faceQuality cfg) = true ->
    Outcome referenceImagePath queryImagePath outputDir w
      (inl (LowScoreReference
              (Detection.score (FaceResult.detection referenceResult))),
       detected referenceImagePath queryImagePath referenceImage queryImage w)
| query_low_score (referenceImage queryImage : Image.t)
    (referenceResult queryResult : FaceResult.t) :
    decodeFile env referenceImagePath (files w !! referenceImagePath)
    = inr referenceImage ->
    decodeFile env queryImagePath (files w !! queryImagePath)
    = inr queryImage ->
    detectSingleFace env referenceImage = Some referenceResult ->
    detectSingleFace env queryImage = Some queryResult ->
    Qltb (Detection.score (FaceResult.detection referenceResult))
         (faceQuality cfg) = false ->
    Qltb (Detection.score (FaceResult.detection queryResult))
         (faceQuality cfg) = true ->
    Outcome referenceImagePath queryImagePath outputDir w
      (inl (LowScoreQuery
              (Detection.score (FaceResult.detection queryResult))),
       detected referenceImagePath queryImagePath referenceImage queryImage w)
| write_failed (referenceImage queryImage : Image.t)
    (referenceResult queryResult : FaceResult.t) (p : string) (w' : World) :
    GatesPassed w referenceImagePath queryImagePath
      referenceImage queryImage referenceResult queryResult ->
    writable env p = false ->
    no_new_report w w' ->
    Outcome referenceImagePath queryImagePath outputDir w
      (inl (CollaboratorError ("EACCES: " +:+ p)), w')
| persisted (referenceImage queryImage : Image.t)
    (referenceResult queryResult : FaceResult.t) (report : Report.t) :
    GatesPassed w referenceImagePath queryImagePath
      referenceImage queryImage referenceResult queryResult ->
    let faceDistance :=
      euclideanDistance env (FaceResult.descriptor referenceResult)
                            (FaceResult.descriptor queryResult) in
    let isMatch := Qltb faceDistance (distanceThreshold cfg) in
    let w4 :=
      rendered outputDir referenceImage queryImage referenceResult queryResult
        (detected referenceImagePath queryImagePath
           referenceImage queryImage w) in
    let reportPath :=
      path_join env outputDir (Report.verificationId report +:+ ".json") in
    Forall (fun p => writable env p = true) (artifactPaths outputDir) ->
    generateVerificationReport cfg env
      (imageData referenceImagePath referenceImage referenceResult "reference")
      (imageData queryImagePath queryImage queryResult "query")
      faceDistance isMatch outputDir w4 = (inr report, w4) ->
    writable env reportPath = true ->
    Outcome referenceImagePath queryImagePath outputDir w
      (inr {| Verification.isMatch := isMatch;
              Verification.faceDistance := faceDistance;
              Verification.confidence :=
                Result.confidence (Report.result report);
              Verification.referenceScore :=
                Detection.score (FaceResult.detection referenceResult);
              Verification.queryScore :=
                Detection.score (FaceResult.detection queryResult);
              Verification.reportPath := reportPath;
              Verification.referenceFace := faceFilename "reference";
              Verification.queryFace := faceFilename "query";
              Verification.outputDir := outputDir |},
       write reportPath (JsonFile report) w4).

(** A stage before the distance computation fails: an input file is
    missing, no face is found in one of the images, or a detection score is
    below the quality minimum. *)
Inductive StageFailure (w : World) (referenceImagePath queryImagePath : string)
  : Prop :=
| input_missing :
    files w !! referenceImagePath = None \/ files w !! queryImagePath = None ->
    StageFailure w referenceImagePath queryImagePath
| no_face (referenceImage queryImage : Image.t) :
    decodeFile env referenceImagePath (files w !! referenceImagePath)
    = inr referenceImage ->
    decodeFile env queryImagePath (files w !! queryImagePath)
    = inr queryImage ->
    detectSingleFace env referenceImage = None \/
    detectSingleFace env queryImage = None ->
    StageFailure w referenceImagePath queryImagePath
| low_score (referenceImage queryImage : Image.t)
    (referenceResult queryResult : FaceResult.t) :
    decodeFile env referenceImagePath (files w !! referenceImagePath)
    = inr referenceImage ->
    decodeFile env queryImagePath (files w !! queryImagePath)
    = inr queryImage ->
    detectSingleFace env referenceImage = Some referenceResult ->
    detectSingleFace env queryImage = Some queryResult ->
    Detection.score (FaceResult.detection referenceResult) < faceQuality cfg \/
    Detection.score (FaceResult.detection queryResult) < faceQuality cfg ->
    StageFailure w referenceImagePath queryImagePath.

(** A report whose two image sections say that a face was detected and name
    a crop file. *)
Definition CompleteReport (report : Report.t) : Prop :=
  ImageSection.faceDetected (Report.referenceImage report) = true /\
  ImageSection.faceDetected (Report.queryImage report) = true /\
  ImageSection.faceFile (Report.referenceImage report) <> "" /\
  ImageSection.faceFile (Report.queryImage report) <> "".

End Outcomes.

(** ** A sample run

    Identity photos with one-dimensional descriptors, for which the
    Euclidean distance is the absolute difference: ["alice"] has descriptor
    [0.3], ["bob"] has [0.9], so their distance is [0.6], the threshold
    itself.  Both are detected with score [0.8], the quality minimum itself;
    the photo ["blurry"] is detected with score [0.65]; the photo ["blank"]
    shows no face. *)

Definition sampleImage (buffer : Buffer) : Image.t :=
  {| Image.width := 100; Image.height := 80; Image.pixels := buffer |}.

Definition sampleFace (pixels : Buffer) : FaceResult.t := {|
  FaceResult.detection := {|
    Detection.box := Box.mk 10 10 3 3;
    Detection.score :=
      if String.eqb pixels "blurry" then 65 # 100 else 8 # 10 |};
  FaceResult.landmarks := None;
  FaceResult.descriptor :=
    if String.eqb pixels "bob" then [9 # 10] else [3 # 10] |}.

Definition sampleEnv : Env := {|
  path_join := fun a b => a +:+ "/" +:+ b;
  path_basename := fun p => p;
  Number_toString := fun q => NilZero.string_of_int (Z.to_int (Qfloor q));
  toISOString := fun _ => "2024-01-15T10:30:45.123Z";
  decodeImage := fun buffer => Some (sampleImage buffer);
  detectSingleFace := fun image =>
    if String.eqb (Image.pixels image) "blank" then None
    else Some (sampleFace (Image.pixels image));
  euclideanDistance := fun a b =>
    match a, b with
    | [x], [y] => Qabs (x - y)
    | _, _ => 0
    end;
  cropToJpeg := fun _ _ => "crop";
  overlayToJpeg := fun _ _ => "overlay";
  writable := fun _ => true
|}.

Definition sampleWorld : World := {|
  files :=
    <["a.jpg" := ImageFile "alice"]>
      (<["b.jpg" := ImageFile "bob"]>
         (<["c.jpg" := ImageFile "blurry"]>
            (<["d.jpg" := ImageFile "blank"]> ∅)));
  clock := 1705311845123;
  events := []
|}.

Definition sampleRun : (Error + Verification.t) * World :=
  runVerification CONFIG sampleEnv "a.jpg" "b.jpg" "out" sampleWorld.

(** What the sample run returns. *)
Definition sampleVerification : Verification.t := {|
  Verification.isMatch := false;
  Verification.faceDistance := 60 # 100;
  Verification.confidence := 0;
  Verification.referenceScore := 8 # 10;
  Verification.queryScore := 8 # 10;
  Verification.reportPath := "out/verify_1705311845123.json";
  Verification.referenceFace := "face_reference.jpg";
  Verification.queryFace := "face_query.jpg";
  Verification.outputDir := "out"
|}.

(** ** The distance of [faceapi] *)

Module faceapi.
Local Open Scope R_scope.

(** Modelled from the spec: [faceapi.euclideanDistance] belongs to the
    face-api.js library, whose source is not in the repository.  Section
    4.4 of the specification: the distance is the Euclidean (L2) distance
    between the two descriptor vectors, which must have the same
    dimension; a mismatch fails loudly.  The descriptors are vectors of
    real numbers here, so that the square root is exact. *)
Definition euclideanDistance (arr1 arr2 : list R) : option R :=
  if Nat.eqb (length arr1) (length arr2)
  then Some (sqrt (fold_left (fun res diff => res + diff ^ 2)
                             (zip_with Rminus arr1 arr2) 0))
  else None.

(** The sum of the squared differences of the components. *)
Fixpoint squaredDifferences (arr1 arr2 : list R) : R :=
  match arr1, arr2 with
  | val1 :: rest1, val2 :: rest2 =>
      (val1 - val2) ^ 2 + squaredDifferences rest1 rest2
  | _, _ => 0
  end.
End faceapi.

(** ** The host process: [createTimestampedDirectory], [loadModels], [main] *)

(** [s.replace(/[:.]/g, "-")] *)
Definition replaceColonDot_char (c : ascii) : ascii :=
  if (Ascii.eqb c ":" || Ascii.eqb c ".")%bool then "-"%char else c.

Fixpoint replaceColonDot (s : string) : string :=
  match s with
  | EmptyString => EmptyString
  | String c rest => String (replaceColonDot_char c) (replaceColonDot rest)
  end.

(** What [main] and its helpers take from the host besides [Env]. *)
Record Host := {
  (** the directory of the script *)
  __dirname : string;
  (** [n.toFixed(digits)] *)
  Number_toFixed : Q -> nat -> string;
  (** [faceapi.nets.<net>.loadFromDisk(modelPath)]: the message of the
      failure, if it fails *)
  loadFromDisk : string -> string -> option string;
  (** whether [fs.mkdirSync] succeeds at a path *)
  mkdir_ok : string -> bool
}.

(** The process: the world of the pipeline, the directories made by
    [fs.mkdirSync] (a path stands for itself and the ancestors that
    [recursive: true] makes with it), the two console streams and the exit
    code once [process.exit] was called. *)
Record Process := {
  world : World;
  directories : gset string;
  stdout : list string;
  stderr : list string;
  exitCode : option Z
}.

Definition console_log (line : string) (p : Process) : Process :=
  {| world := world p; directories := directories p;
     stdout := stdout p ++ [line]; stderr := stderr p;
     exitCode := exitCode p |}.

Definition console_error (line : string) (p : Process) : Process :=
  {| world := world p; directories := directories p;
     stdout := stdout p; stderr := stderr p ++ [line];
     exitCode := exitCode p |}.

Definition process_exit (code : Z) (p : Process) : Process :=
  {| world := world p; directories := directories p;
     stdout := stdout p; stderr := stderr p;
     exitCode := Some code |}.

Definition with_world (w : World) (p : Process) : Process :=
  {| world := w; directories := directories p;
     stdout := stdout p; stderr := stderr p;
     exitCode := exitCode p |}.

(** The name of the report file: [`${report.verificationId}.json`] with
    [verificationId = `verify_${Date.now()}`]. *)
Definition reportFileName (env : Env) (w : World) : string :=
  ("verify_" +:+ Number_toString env (inject_Z (clock w))) +:+ ".json".

Section Main.

Variable cfg : Config.
Variable env : Env.
Variable host : Host.

(** [CONFIG.baseOutputDir] *)
Definition baseOutputDir : string :=
  path_join env (__dirname host) "verification_reports".

(** [fs.existsSync] on a path that may be a file or a directory. *)
Definition path_exists (path : string) (p : Process) : bool :=
  match files (world p) !! path with
  | Some _ => true
  | None => bool_decide (path ∈ directories p)
  end.

Definition createTimestampedDirectory (p : Process)
  : (Error + string) * Process :=
  let timestamp := replaceColonDot (toISOString env (clock (world p))) in
  let outputDir := path_join env baseOutputDir timestamp in
  if negb (path_exists outputDir p) then
    if mkdir_ok host outputDir then
      (inr outputDir,
       {| world := world p;
          directories := {[ outputDir ]} ∪ directories p;
          stdout := stdout p; stderr := stderr p;
          exitCode := exitCode p |})
    else (inl (CollaboratorError ("EACCES: " +:+ outputDir)), p)
  else (inr outputDir, p).

(** [Promise.all] over the three nets: it rejects when one of them does. *)
Definition loadModels : Error + unit :=
  let modelPath := path_join env (__dirname host) "models" in
  match loadFromDisk host "ssdMobilenetv1" modelPath,
        loadFromDisk host "faceLandmark68Net" modelPath,
        loadFromDisk host "faceRecognitionNet" modelPath with
  | None, None, None => inr tt
  | Some m, _, _ => inl (CollaboratorError m)
  | None, Some m, _ => inl (CollaboratorError m)
  | None, None, Some m => inl (CollaboratorError m)
  end.

(** The [catch] block of [main]. *)
Definition main_catch (error : Error) (p : Process) : Process :=
  process_exit 1 (console_error ("Error: " +:+ message env error) p).

(** [main], with [args = process.argv.slice(2)].  The clock of the world
    stands still during a run, so [startTime] and [endTime] are two readings
    of the same clock. *)
Definition main (args : list string) (p : Process) : Process :=
  if (length args <? 2)%nat then
    process_exit 1
      (console_error "Usage: node verify.js <reference_image> <query_image>" p)
  else
  let referenceImagePath :=
    path_join env (path_join env (__dirname host) "images") (nth 0 args "") in
  let queryImagePath :=
    path_join env (path_join env (__dirname host) "images") (nth 1 args "") in
  match createTimestampedDirectory p with
  | (inl error, p) => main_catch error p
  | (inr outputDir, p) =>
  match loadModels with
  | inl error => main_catch error p
  | inr _ =>
  let startTime := clock (world p) in
  match runVerification cfg env referenceImagePath queryImagePath outputDir
          (world p) with
  | (inl error, w) => main_catch error (with_world w p)
  | (inr result, w) =>
  let p := with_world w p in
  let endTime := clock (world p) in
  let p :=
    console_log
      ("Face Distance: " +:+
       Number_toFixed host (Verification.faceDistance result) 4) p in
  let p :=
    console_log
      ("Threshold: " +:+ Number_toString env (distanceThreshold cfg)) p in
  let p :=
    console_log
      ("Confidence: " +:+
       Number_toFixed host (Verification.confidence result * 100) 1 +:+ "%")
      p in
  let p :=
    console_log
      ("Detection Scores - Reference: " +:+
       Number_toFixed host (Verification.referenceScore result) 3 +:+
       ", Query: " +:+
       Number_toFixed host (Verification.queryScore result) 3) p in
  let p :=
    console_log
      ("Reference face: " +:+ Verification.referenceFace result) p in
  let p := console_log ("Query face: " +:+ Verification.queryFace result) p in
  let p :=
    console_log
      ("Processing time: " +:+
       Number_toString env (inject_Z (endTime - startTime) / 1000) +:+
       " seconds") p in
  let p :=
    console_log ("Output Directory: " +:+ Verification.outputDir result) p in
  let p := console_log ("Report: " +:+ Verification.reportPath result) p in
  if Verification.isMatch result
  then console_log "VERIFIED" p
  else console_log "REJECTED" p
  end end end.

End Main.

(** A host for the sample run. *)
Definition sampleHost : Host := {|
  __dirname := "/app";
  Number_toFixed := fun q _ => NilZero.string_of_int (Z.to_int (Qfloor q));
  loadFromDisk := fun _ _ => None;
  mkdir_ok := fun _ => true
|}.

Definition sampleProcess : Process := {|
  world := {|
    files :=
      <["/app/images/a.jpg" := ImageFile "alice"]>
        (<["/app/images/b.jpg" := ImageFile "bob"]>
           (<["/app/images/c.jpg" := ImageFile "blurry"]> ∅));
    clock := 1705311845123;
    events := [] |};
  directories := ∅;
  stdout := [];
  stderr := [];
  exitCode := None
|}.

(** The sample environment on a disk where the report file cannot be
    written. *)
Definition sampleEnvNoReport : Env := {|
  path_join := path_join sampleEnv;
  path_basename := path_basename sampleEnv;
  Number_toString := Number_toString sampleEnv;
  toISOString := toISOString sampleEnv;
  decodeImage := decodeImage sampleEnv;
  detectSingleFace := detectSingleFace sampleEnv;
  euclideanDistance := euclideanDistance sampleEnv;
  cropToJpeg := cropToJpeg sampleEnv;
  overlayToJpeg := overlayToJpeg sampleEnv;
  writable := fun p => negb (String.eqb p "out/verify_1705311845123.json")
|}.

(** A host without model files. *)
Definition sampleHostNoModels : Host := {|
  __dirname := "/app";
  Number_toFixed := Number_toFixed sampleHost;
  loadFromDisk := fun _ _ => Some "ENOENT: /app/models";
  mkdir_ok := fun _ => true
|}.

(** ** Facts about [Math.floor], [Math.max], [Math.min] *)

Lemma floor_le (q : Q) : Math.floor q <= q.
Proof. apply Qfloor_le. Qed.

Lemma floor_lt (q : Q) : q < Math.floor q + 1.
Proof.
  unfold Math.floor.
  assert (H := Qlt_floor q).
  rewrite inject_Z_plus in H. exact H.
Qed.

Lemma floor_mono (p q : Q) : p <= q -> Math.floor p <= Math.floor q.
Proof.
  intros H. unfold Math.floor. rewrite <- Zle_Qle. now apply Qfloor_resp_le.
Qed.

Lemma floor_integer (q : Q) : is_integer (Math.floor q).
Proof. unfold is_integer, Math.floor. now rewrite Qfloor_Z. Qed.

Lemma floor_ge_integer (n q : Q) : is_integer n -> n <= q -> n <= Math.floor q.
Proof.
  intros Hn H. unfold is_integer in Hn. rewrite <- Hn.
  apply (floor_mono n q H).
Qed.

Lemma floor_nonneg (q : Q) : 0 <= q -> 0 <= Math.floor q.
Proof. intros H. apply (floor_ge_integer 0 q); [reflexivity | exact H]. Qed.

(** The sum of two integers that lies strictly above [n - 2], for an integer
    [n], is at least [n - 1]. *)
Lemma floor_sum_ge (n p q : Q) :
  is_integer n -> n <= p + q -> n - 1 <= Math.floor p + Math.floor q.
Proof.
  intros Hn H.
  assert (Hp := floor_lt p). assert (Hq := floor_lt q).
  unfold is_integer in Hn. unfold Math.floor in *.
  assert (Hlt : inject_Z (Qfloor n) < inject_Z (Qfloor p + Qfloor q + 2)).
  { rewrite !inject_Z_plus. rewrite Hn.
    change (inject_Z 2) with 2. lra. }
  rewrite <- Zlt_Qlt in Hlt.
  assert (Hle : inject_Z (Qfloor n) <= inject_Z (Qfloor p + Qfloor q + 1)).
  { rewrite <- Zle_Qle. lia. }
  rewrite !inject_Z_plus, Hn in Hle.
  change (inject_Z 1) with 1 in Hle. lra.
Qed.

Lemma max0_spec (a : Q) : 0 <= Math.max 0 a /\ a <= Math.max 0 a /\
  (Math.max 0 a == 0 \/ Math.max 0 a == a).
Proof.
  unfold Math.max. split; [apply Q.le_max_l|]. split; [apply Q.le_max_r|].
  destruct (Q.max_spec_le 0 a) as [[_ H]|[_ H]]; auto.
Qed.

Lemma min_spec (a b : Q) : Math.min a b <= a /\ Math.min a b <= b /\
  (Math.min a b == a \/ Math.min a b == b).
Proof.
  unfold Math.min. split; [apply Q.le_min_l|]. split; [apply Q.le_min_r|].
  destruct (Q.min_spec_le a b) as [[_ H]|[_ H]]; auto.
Qed.

(** [lra] reads [a / 2] once it is written [a * (1 # 2)]. *)
Ltac halves := unfold Qdiv in *; change (/ 2) with (1 # 2) in *.

Lemma calculateZoomedOutBox_axes box z W H :
  calculateZoomedOutBox box z W H =
  {| Box.x := Math.floor (axisOrigin (Box.x box) (Box.width box) z);
     Box.y := Math.floor (axisOrigin (Box.y box) (Box.height box) z);
     Box.width :=
       Math.floor (axisExtent (Box.x box) (Box.width box) z W);
     Box.height :=
       Math.floor (axisExtent (Box.y box) (Box.height box) z H) |}.
Proof. reflexivity. Qed.

Lemma axis_inside (x w z W : Q) :
  0 <= Math.floor (axisOrigin x w z) /\
  Math.floor (axisOrigin x w z) + Math.floor (axisExtent x w z W) <= W.
Proof.
  unfold axisExtent.
  destruct (max0_spec (x - w * z / 2)) as (H0 & _ & _).
  fold (axisOrigin x w z) in H0.
  destruct (min_spec (W - axisOrigin x w z) (w + w * z)) as (H1 & _ & _).
  split; [now apply floor_nonneg|].
  assert (Ha := floor_le (axisOrigin x w z)).
  assert (Hb := floor_le (Math.min (W - axisOrigin x w z) (w + w * z))).
  lra.
Qed.

Lemma axisOrigin_le (x w z : Q) :
  0 <= x -> 0 <= w -> 0 <= z -> axisOrigin x w z <= x.
Proof.
  intros Hx Hw Hz. unfold axisOrigin.
  assert (0 <= w * z) by (apply Qmult_le_0_compat; assumption).
  destruct (max0_spec (x - w * z / 2)) as (_ & _ & [E|E]); rewrite E;
    halves; lra.
Qed.

Lemma axisExtent_ge (x w z W : Q) :
  0 <= x -> 0 <= w -> 0 <= z -> x + w <= W -> w <= axisExtent x w z W.
Proof.
  intros Hx Hw Hz HW. unfold axisExtent.
  assert (Ho := axisOrigin_le x w z Hx Hw Hz).
  assert (0 <= w * z) by (apply Qmult_le_0_compat; assumption).
  destruct (min_spec (W - axisOrigin x w z) (w + w * z)) as (_ & _ & [E|E]);
    rewrite E; lra.
Qed.

Lemma axis_far_edge (x w z W : Q) :
  0 <= x -> 0 <= w -> 0 <= z -> x + w <= W ->
  x + w <= axisOrigin x w z + axisExtent x w z W.
Proof.
  intros Hx Hw Hz HW. unfold axisExtent.
  assert (Hzw : 0 <= w * z) by (apply Qmult_le_0_compat; assumption).
  destruct (min_spec (W - axisOrigin x w z) (w + w * z)) as (_ & _ & [E|E]);
    rewrite E; [lra|].
  unfold axisOrigin.
  destruct (max0_spec (x - w * z / 2)) as (_ & Hge & _). halves. lra.
Qed.

Lemma axisOrigin_antitone (x w z1 z2 : Q) :
  0 <= w -> z1 <= z2 -> axisOrigin x w z2 <= axisOrigin x w z1.
Proof.
  intros Hw Hz. unfold axisOrigin, Math.max.
  apply Q.max_le_compat_l.
  assert (w * z1 <= w * z2).
  { rewrite !(Qmult_comm w). apply Qmult_le_compat_r; assumption. }
  halves. lra.
Qed.

Lemma axisExtent_monotone (x w z1 z2 W : Q) :
  0 <= w -> z1 <= z2 -> axisExtent x w z1 W <= axisExtent x w z2 W.
Proof.
  intros Hw Hz. unfold axisExtent, Math.min.
  assert (Ho := axisOrigin_antitone x w z1 z2 Hw Hz).
  assert (w * z1 <= w * z2).
  { rewrite !(Qmult_comm w). apply Qmult_le_compat_r; assumption. }
  apply Q.min_le_compat; lra.
Qed.

Lemma is_integer_inject (q : Q) (n : Z) : q == inject_Z n -> is_integer q.
Proof.
  intros E. unfold is_integer.
  rewrite (Qfloor_comp q (inject_Z n) E), Qfloor_Z. now symmetry.
Qed.

Lemma is_integer_plus (p q : Q) :
  is_integer p -> is_integer q -> is_integer (p + q).
Proof.
  unfold is_integer. intros Hp Hq.
  apply (is_integer_inject (p + q) (Qfloor p + Qfloor q)).
  rewrite inject_Z_plus, Hp, Hq. reflexivity.
Qed.

(** ** The crop rectangle *)

(** Comparisons of numerals in the examples below. *)
Ltac qcompute :=
  repeat split;
  first [ reflexivity
        | let C := fresh in intro C; vm_compute in C; discriminate C ].

(** C3. For a box that satisfies the BoundingBox invariant, a zoom factor
    [>= 0] and positive integer image dimensions, the box returned by
    [calculateZoomedOutBox] has integer coordinates and lies inside the
    image: [x >= 0], [y >= 0], [x + width <= imageWidth] and
    [y + height <= imageHeight]. *)
Theorem calculateZoomedOutBox_inside_image
    (box : Box.t) (zoomFactor imageWidth imageHeight : Q) :
  BoundingBox box imageWidth imageHeight ->
  0 <= zoomFactor ->
  is_integer imageWidth -> is_integer imageHeight ->
  0 < imageWidth -> 0 < imageHeight ->
  let r := calculateZoomedOutBox box zoomFactor imageWidth imageHeight in
  (is_integer (Box.x r) /\ is_integer (Box.y r) /\
   is_integer (Box.width r) /\ is_integer (Box.height r)) /\
  0 <= Box.x r /\ 0 <= Box.y r /\
  Box.x r + Box.width r <= imageWidth /\
  Box.y r + Box.height r <= imageHeight.
Proof.
  intros _ _ _ _ _ _ r. subst r.
  rewrite calculateZoomedOutBox_axes. cbn [Box.x Box.y Box.width Box.height].
  destruct (axis_inside (Box.x box) (Box.width box) zoomFactor imageWidth)
    as [Hx Hxw].
  destruct (axis_inside (Box.y box) (Box.height box) zoomFactor imageHeight)
    as [Hy Hyh].
  repeat split; try apply floor_integer; assumption.
Qed.

Lemma calculateZoomedOutBox_inside_image_witness :
  let r := calculateZoomedOutBox (Box.mk 10 10 3 3) (3 # 10) 100 80 in
  (is_integer (Box.x r) /\ is_integer (Box.y r) /\
   is_integer (Box.width r) /\ is_integer (Box.height r)) /\
  0 <= Box.x r /\ 0 <= Box.y r /\
  Box.x r + Box.width r <= 100 /\
  Box.y r + Box.height r <= 80.
Proof.
  apply (calculateZoomedOutBox_inside_image (Box.mk 10 10 3 3) (3 # 10) 100 80);
    unfold BoundingBox, is_integer; qcompute.
Defined.

Example calculateZoomedOutBox_sample :
  calculateZoomedOutBox (Box.mk 10 10 3 3) (3 # 10) 100 100 = Box.mk 9 9 3 3.
Proof. reflexivity. Qed.

(** C5, as stated, fails: origin and size are truncated one by one, so the
    right and the bottom edge of the returned box can fall short of the
    original box.  The box [(10, 10, 3, 3)] in a [100 x 100] image with zoom
    factor [0.3] becomes [(9, 9, 3, 3)], whose right edge is [12 < 13]. *)
Lemma calculateZoomedOutBox_not_containing :
  ~ (forall (box : Box.t) (zoomFactor imageWidth imageHeight : Q),
       BoundingBox box imageWidth imageHeight ->
       IntegerBox box ->
       0 <= zoomFactor ->
       let r := calculateZoomedOutBox box zoomFactor imageWidth imageHeight in
       Box.x r <= Box.x box /\ Box.y r <= Box.y box /\
       Box.x box + Box.width box <= Box.x r + Box.width r /\
       Box.y box + Box.height box <= Box.y r + Box.height r).
Proof.
  intros C.
  assert (B : BoundingBox (Box.mk 10 10 3 3) 100 100)
    by (unfold BoundingBox; qcompute).
  assert (I : IntegerBox (Box.mk 10 10 3 3))
    by (unfold IntegerBox, is_integer; qcompute).
  assert (Z : 0 <= 3 # 10) by qcompute.
  destruct (C (Box.mk 10 10 3 3) (3 # 10) 100 100 B I Z) as (_ & _ & E & _).
  vm_compute in E. now apply E.
Qed.

(** C5, amended. For an integer box that satisfies the BoundingBox
    invariant and a zoom factor [>= 0], the returned box starts at or before
    the original box on both axes, and its right and bottom edges are at
    most one pixel short of those of the original box. *)
Theorem calculateZoomedOutBox_contains_up_to_one_pixel
    (box : Box.t) (zoomFactor imageWidth imageHeight : Q) :
  BoundingBox box imageWidth imageHeight ->
  IntegerBox box ->
  0 <= zoomFactor ->
  let r := calculateZoomedOutBox box zoomFactor imageWidth imageHeight in
  Box.x r <= Box.x box /\ Box.y r <= Box.y box /\
  Box.x box + Box.width box - 1 <= Box.x r + Box.width r /\
  Box.y box + Box.height box - 1 <= Box.y r + Box.height r.
Proof.
  intros (Hx & Hy & Hw & Hh & HW & HH) (Ix & Iy & Iw & Ih) Hz r. subst r.
  rewrite calculateZoomedOutBox_axes. cbn [Box.x Box.y Box.width Box.height].
  assert (Hw' : 0 <= Box.width box) by lra.
  assert (Hh' : 0 <= Box.height box) by lra.
  repeat split.
  - eapply Qle_trans; [apply floor_le | now apply axisOrigin_le].
  - eapply Qle_trans; [apply floor_le | now apply axisOrigin_le].
  - apply floor_sum_ge; [now apply is_integer_plus | now apply axis_far_edge].
  - apply floor_sum_ge; [now apply is_integer_plus | now apply axis_far_edge].
Qed.

Lemma calculateZoomedOutBox_contains_up_to_one_pixel_witness :
  let r := calculateZoomedOutBox (Box.mk 10 10 3 3) (3 # 10) 100 100 in
  Box.x r <= 10 /\ Box.y r <= 10 /\
  10 + 3 - 1 <= Box.x r + Box.width r /\
  10 + 3 - 1 <= Box.y r + Box.height r.
Proof.
  apply (calculateZoomedOutBox_contains_up_to_one_pixel
           (Box.mk 10 10 3 3) (3 # 10) 100 100);
    unfold BoundingBox, IntegerBox, is_integer; qcompute.
Defined.

(** C6. For a box that satisfies the BoundingBox invariant and fixed image
    dimensions, a larger zoom factor never gives a smaller width or height:
    for [0 <= z1 <= z2] the width and height returned at [z2] are at least
    those returned at [z1]. *)
Theorem calculateZoomedOutBox_monotone
    (box : Box.t) (z1 z2 imageWidth imageHeight : Q) :
  BoundingBox box imageWidth imageHeight ->
  0 <= z1 -> z1 <= z2 ->
  Box.width (calculateZoomedOutBox box z1 imageWidth imageHeight) <=
    Box.width (calculateZoomedOutBox box z2 imageWidth imageHeight) /\
  Box.height (calculateZoomedOutBox box z1 imageWidth imageHeight) <=
    Box.height (calculateZoomedOutBox box z2 imageWidth imageHeight).
Proof.
  intros (_ & _ & Hw & Hh & _ & _) _ Hz.
  rewrite !calculateZoomedOutBox_axes. cbn [Box.width Box.height].
  split; apply floor_mono, axisExtent_monotone; try assumption; lra.
Qed.

Lemma calculateZoomedOutBox_monotone_witness :
  Box.width (calculateZoomedOutBox (Box.mk 10 10 3 3) (3 # 10) 100 80) <=
    Box.width (calculateZoomedOutBox (Box.mk 10 10 3 3) 1 100 80) /\
  Box.height (calculateZoomedOutBox (Box.mk 10 10 3 3) (3 # 10) 100 80) <=
    Box.height (calculateZoomedOutBox (Box.mk 10 10 3 3) 1 100 80).
Proof.
  apply (calculateZoomedOutBox_monotone (Box.mk 10 10 3 3) (3 # 10) 1 100 80);
    unfold BoundingBox; qcompute.
Defined.

(** C10. For an integer box that satisfies the BoundingBox invariant and a
    zoom factor [>= 0], the returned width and height are at least the
    width and height of the original box, hence positive. *)
Theorem calculateZoomedOutBox_never_shrinks
    (box : Box.t) (zoomFactor imageWidth imageHeight : Q) :
  BoundingBox box imageWidth imageHeight ->
  IntegerBox box ->
  0 <= zoomFactor ->
  let r := calculateZoomedOutBox box zoomFactor imageWidth imageHeight in
  (Box.width box <= Box.width r /\ Box.height box <= Box.height r) /\
  0 < Box.width r /\ 0 < Box.height r.
Proof.
  intros (Hx & Hy & Hw & Hh & HW & HH) (_ & _ & Iw & Ih) Hz r. subst r.
  rewrite calculateZoomedOutBox_axes. cbn [Box.x Box.y Box.width Box.height].
  assert (Hw' : 0 <= Box.width box) by lra.
  assert (Hh' : 0 <= Box.height box) by lra.
  assert (Gw : Box.width box <=
               Math.floor (axisExtent (Box.x box) (Box.width box)
                                      zoomFactor imageWidth))
    by (apply floor_ge_integer; [assumption | now apply axisExtent_ge]).
  assert (Gh : Box.height box <=
               Math.floor (axisExtent (Box.y box) (Box.height box)
                                      zoomFactor imageHeight))
    by (apply floor_ge_integer; [assumption | now apply axisExtent_ge]).
  repeat split; try assumption; lra.
Qed.

Lemma calculateZoomedOutBox_never_shrinks_witness :
  let r := calculateZoomedOutBox (Box.mk 0 70 40 10) (3 # 10) 100 80 in
  (40 <= Box.width r /\ 10 <= Box.height r) /\
  0 < Box.width r /\ 0 < Box.height r.
Proof.
  apply (calculateZoomedOutBox_never_shrinks (Box.mk 0 70 40 10) (3 # 10) 100 80);
    unfold BoundingBox, IntegerBox, is_integer; qcompute.
Defined.

(** ** The runs of [runVerification] *)

Section PipelineFacts.

Variable cfg : Config.
Variable env : Env.

Lemma no_new_report_refl w : no_new_report w w.
Proof. intros p r H. exact H. Qed.

Lemma no_new_report_trans w1 w2 w3 :
  no_new_report w1 w2 -> no_new_report w2 w3 -> no_new_report w1 w3.
Proof. intros H12 H23 p r H. apply H12, H23, H. Qed.

Lemma no_new_report_log ev w : no_new_report w (log ev w).
Proof. intros p r H. exact H. Qed.

Lemma no_new_report_write_image p buffer w :
  no_new_report w (write p (ImageFile buffer) w).
Proof.
  intros q r. unfold write. cbn [files].
  destruct (decide (p = q)) as [->|Hne].
  - rewrite lookup_insert_eq. discriminate.
  - rewrite lookup_insert_ne by exact Hne. trivial.
Qed.

Ltac nnr :=
  repeat first
    [ apply no_new_report_refl
    | eapply no_new_report_trans; [|apply no_new_report_write_image]
    | eapply no_new_report_trans; [|apply no_new_report_log] ].

Ltac unfold_run :=
  unfold runVerification, extractAndSaveFace, drawFaceDetection,
    generateVerificationReport, saveVerificationReport,
    canvas_loadImage, faceapi_detectSingleFace, fs_existsSync,
    fs_writeFileSync, Date_now, throw, mbind, mret, M_bind, M_ret in *.

Lemma decodeFile_inl p file e :
  decodeFile env p file = inl e -> exists m, e = CollaboratorError m.
Proof.
  unfold decodeFile. intros H.
  destruct file as [[buffer|report]|];
    [destruct (decodeImage env buffer)| |]; inversion H; eauto.
Qed.

Lemma runVerification_outcome ref qry od w :
  Outcome cfg env ref qry od w (runVerification cfg env ref qry od w).
Proof.
  unfold_run. cbn beta iota zeta.
  destruct (files w !! ref) as [fr|] eqn:Fr; cbn [negb];
    [|now apply reference_missing].
  destruct (files w !! qry) as [fq|] eqn:Fq; cbn [negb];
    [|apply query_missing; [congruence | assumption]].
  cbn [log files]. rewrite Fr.
  destruct (decodeFile env ref (Some fr)) as [e|ri] eqn:Dr.
  { destruct (decodeFile_inl _ _ _ Dr) as [m ->].
    apply reference_unreadable; congruence. }
  rewrite Fq.
  destruct (decodeFile env qry (Some fq)) as [e|qi] eqn:Dq.
  { destruct (decodeFile_inl _ _ _ Dq) as [m ->].
    apply query_unreadable with (referenceImage := ri); congruence. }
  rewrite <- Fr in Dr. rewrite <- Fq in Dq.
  destruct (detectSingleFace env ri) as [rr|] eqn:Er;
    [|destruct (detectSingleFace env qi);
      now apply reference_without_face].
  destruct (detectSingleFace env qi) as [qr|] eqn:Eq;
    [|now apply query_without_face with (referenceResult := rr)].
  destruct (Qltb (Detection.score (FaceResult.detection rr)) (faceQuality cfg))
    eqn:Sr; [now apply reference_low_score with (queryResult := qr)|].
  destruct (Qltb (Detection.score (FaceResult.detection qr)) (faceQuality cfg))
    eqn:Sq; [now apply query_low_score with (referenceResult := rr)|].
  assert (G : GatesPassed cfg env w ref qry ri qi rr qr) by (split; assumption).
  destruct (writable env (path_join env od ("face_" +:+ "reference" +:+ ".jpg")))
    eqn:W1; [|apply (write_failed _ _ _ _ _ _ _ _ _ _ _ _ G W1); nnr].
  destruct (writable env (path_join env od ("face_" +:+ "query" +:+ ".jpg")))
    eqn:W2; [|apply (write_failed _ _ _ _ _ _ _ _ _ _ _ _ G W2); nnr].
  destruct (writable env (path_join env od "reference_detection.jpg"))
    eqn:W3; [|apply (write_failed _ _ _ _ _ _ _ _ _ _ _ _ G W3); nnr].
  destruct (writable env (path_join env od "query_detection.jpg"))
    eqn:W4; [|apply (write_failed _ _ _ _ _ _ _ _ _ _ _ _ G W4); nnr].
  cbn beta iota zeta.
  match goal with
  | |- context [if writable env ?p then _ else _] =>
      destruct (writable env p) eqn:W5;
        [|apply (write_failed _ _ _ _ _ _ _ _ _ _ _ _ G W5); nnr]
  end.
  match goal with
  | |- context [JsonFile ?r] =>
      apply (persisted cfg env ref qry od w ri qi rr qr r G)
  end.
  - repeat constructor; assumption.
  - reflexivity.
  - exact W5.
Qed.

Lemma Qltb_lt (a b : Q) : Qltb a b = true <-> a < b.
Proof.
  unfold Qltb. rewrite negb_true_iff. split.
  - intros H. apply Qnot_le_lt. intros L.
    apply Qle_bool_iff in L. congruence.
  - intros H. destruct (Qle_bool b a) eqn:E; [|reflexivity].
    apply Qle_bool_iff in E. now apply Qlt_not_le in H.
Qed.

Lemma Qltb_ge (a b : Q) : Qltb a b = false <-> b <= a.
Proof.
  unfold Qltb. rewrite negb_false_iff. apply Qle_bool_iff.
Qed.

Lemma decodeFile_inr p file image :
  decodeFile env p file = inr image -> file <> None.
Proof. intros H ->. discriminate H. Qed.

(** The outcome of a run, read off its result. *)
Ltac run_cases R :=
  match type of R with
  | runVerification ?c ?e ?ref ?qry ?od ?w = _ =>
      let O := fresh "O" in
      pose proof (runVerification_outcome ref qry od w) as O;
      rewrite R in O; inversion O; subst; clear O;
      repeat match goal with x := _ |- _ => subst x end
  end.

(** C7. When the query image path does not exist, [runVerification] throws
    an input-not-found error whose message names a path that does not
    exist (the query path, unless the reference path is missing too and is
    reported first), and it leaves the world untouched: no image was
    decoded, no detection ran, no file was written. *)
Theorem runVerification_query_not_found
    (referenceImagePath queryImagePath outputDir : string) (w : World) :
  files w !! queryImagePath = None ->
  exists e,
    runVerification cfg env referenceImagePath queryImagePath outputDir w
    = (inl e, w) /\
    (files w !! referenceImagePath <> None ->
       e = QueryImageNotFound queryImagePath /\
       message env e = "Query image not found: " +:+ queryImagePath) /\
    (files w !! referenceImagePath = None ->
       e = ReferenceImageNotFound referenceImagePath /\
       message env e = "Reference image not found: " +:+ referenceImagePath).
Proof.
  intros Hq.
  destruct (runVerification cfg env referenceImagePath queryImagePath
              outputDir w) as [res w'] eqn:R.
  run_cases R;
    try match goal with
        | H : decodeFile _ queryImagePath _ = inr _ |- _ =>
            apply decodeFile_inr in H
        | H : GatesPassed _ _ _ _ _ _ _ _ _ |- _ =>
            destruct H as [_ H _ _ _ _]; apply decodeFile_inr in H
        end;
    try contradiction.
  - eexists; split; [reflexivity|]. split; [contradiction|]. auto.
  - eexists; split; [reflexivity|]. split; [auto|contradiction].
Qed.

(** C9. Once both images are decoded and a face is found in each, the
    low-detection-score error of the reference image is thrown exactly when
    the reference score is strictly below [faceQuality], and that of the
    query image exactly when the reference score passed and the query score
    is strictly below [faceQuality]; a score equal to [faceQuality] passes
    the gate. *)
Theorem runVerification_quality_gate
    (referenceImagePath queryImagePath outputDir : string) (w : World)
    (referenceImage queryImage : Image.t)
    (referenceResult queryResult : FaceResult.t) :
  decodeFile env referenceImagePath (files w !! referenceImagePath)
  = inr referenceImage ->
  decodeFile env queryImagePath (files w !! queryImagePath)
  = inr queryImage ->
  detectSingleFace env referenceImage = Some referenceResult ->
  detectSingleFace env queryImage = Some queryResult ->
  let referenceScore := Detection.score (FaceResult.detection referenceResult) in
  let queryScore := Detection.score (FaceResult.detection queryResult) in
  let res :=
    fst (runVerification cfg env referenceImagePath queryImagePath
           outputDir w) in
  ((exists s, res = inl (LowScoreReference s))
     <-> referenceScore < faceQuality cfg) /\
  (referenceScore < faceQuality cfg ->
     res = inl (LowScoreReference referenceScore)) /\
  ((exists s, res = inl (LowScoreQuery s))
     <-> faceQuality cfg <= referenceScore /\ queryScore < faceQuality cfg) /\
  (faceQuality cfg <= referenceScore -> queryScore < faceQuality cfg ->
     res = inl (LowScoreQuery queryScore)) /\
  (referenceScore == faceQuality cfg ->
     forall s, res <> inl (LowScoreReference s)) /\
  (queryScore == faceQuality cfg ->
     forall s, res <> inl (LowScoreQuery s)).
Proof.
  intros Dr Dq Er Eq referenceScore queryScore res.
  subst res referenceScore queryScore.
  destruct (runVerification cfg env referenceImagePath queryImagePath
              outputDir w) as [res w'] eqn:R.
  cbn [fst].
  assert (Hr : files w !! referenceImagePath <> None)
    by exact (decodeFile_inr _ _ _ Dr).
  assert (Hq : files w !! queryImagePath <> None)
    by exact (decodeFile_inr _ _ _ Dq).
  run_cases R;
    try contradiction;
    try match goal with
        | H : GatesPassed _ _ _ _ _ _ _ _ _ |- _ => destruct H
        end;
    repeat match goal with
           | H1 : ?x = inr ?a, H2 : ?x = inr ?b |- _ =>
               assert (a = b) by congruence; subst b; clear H2
           | H1 : ?x = Some ?a, H2 : ?x = Some ?b |- _ =>
               assert (a = b) by congruence; subst b; clear H2
           end;
    try congruence;
    repeat match goal with
           | H : Qltb _ _ = true |- _ => apply Qltb_lt in H
           | H : Qltb _ _ = false |- _ => apply Qltb_ge in H
           end.
  all: repeat split; intros;
    repeat match goal with
           | H : exists _, _ |- _ => destruct H
           | H : _ /\ _ |- _ => destruct H
           end;
    try discriminate; try reflexivity; try assumption; eauto;
    try lra.
Qed.

Lemma generateVerificationReport_inv referenceData queryData d isMatch od w
    report w' :
  generateVerificationReport cfg env referenceData queryData d isMatch od w
  = (inr report, w') ->
  Report.result report =
    {| Result.isMatch := isMatch;
       Result.faceDistance := d;
       Result.threshold := distanceThreshold cfg;
       Result.confidence := Math.max 0 (1 - d / distanceThreshold cfg);
       Result.status := if isMatch then "VERIFIED" else "REJECTED" |} /\
  ImageSection.faceDetected (Report.referenceImage report)
  = ImageData.faceDetected referenceData /\
  ImageSection.faceDetected (Report.queryImage report)
  = ImageData.faceDetected queryData /\
  ImageSection.faceFile (Report.referenceImage report)
  = ImageData.faceFile referenceData /\
  ImageSection.faceFile (Report.queryImage report)
  = ImageData.faceFile queryData.
Proof.
  unfold generateVerificationReport, Date_now, mbind, mret, M_bind, M_ret.
  intros H. inversion H. subst. cbn. auto.
Qed.

Lemma lookup_written p data w : files (write p data w) !! p = Some data.
Proof. unfold write. cbn [files]. apply lookup_insert_eq. Qed.

Lemma lookup_written_ne p q data w :
  p <> q -> files (write p data w) !! q = files w !! q.
Proof. intros H. unfold write. cbn [files]. now apply lookup_insert_ne. Qed.

Lemma files_rendered od ri qi rr qr w :
  no_new_report w (rendered cfg env od ri qi rr qr w).
Proof. unfold rendered. nnr. Qed.

Lemma GatesPassed_no_failure w ref qry ri qi rr qr :
  GatesPassed cfg env w ref qry ri qi rr qr ->
  ~ StageFailure cfg env w ref qry.
Proof.
  intros [Dr Dq Er Eq Sr Sq] F.
  apply Qltb_ge in Sr. apply Qltb_ge in Sq.
  destruct F as [[M|M] | ri' qi' Dr' Dq' [N|N]
                | ri' qi' rr' qr' Dr' Dq' Er' Eq' [L|L]].
  - rewrite M in Dr. discriminate.
  - rewrite M in Dq. discriminate.
  - congruence.
  - congruence.
  - assert (rr' = rr) by congruence. subst rr'. lra.
  - assert (qr' = qr) by congruence. subst qr'. lra.
Qed.

Lemma imageData_complete ref qry ri qi rr qr d isMatch od w report w' :
  generateVerificationReport cfg env
    (imageData cfg ref ri rr "reference") (imageData cfg qry qi qr "query")
    d isMatch od w = (inr report, w') ->
  CompleteReport report.
Proof.
  intros H. apply generateVerificationReport_inv in H.
  destruct H as (_ & F1 & F2 & N1 & N2).
  unfold CompleteReport. rewrite F1, F2, N1, N2. cbn.
  repeat split; discriminate.
Qed.

(** C4. A run that fails at a stage before the distance computation (a
    missing input file, no face in one of the images, a score below the
    quality minimum) throws and writes no file at all; a run that throws,
    for whatever reason, adds no report file; a report file appears only in
    a run in which both images were decoded, a face was found in each, both
    scores passed, all four image files were written and the run returned;
    and every report a run writes has both [faceDetected] fields [true] and
    two non-empty crop file names. *)
Theorem runVerification_no_partial_report
    (referenceImagePath queryImagePath outputDir : string) (w w' : World)
    (res : Error + Verification.t) :
  runVerification cfg env referenceImagePath queryImagePath outputDir w
  = (res, w') ->
  (StageFailure cfg env w referenceImagePath queryImagePath ->
     (exists e, res = inl e) /\ files w' = files w) /\
  ((exists e, res = inl e) -> no_new_report w w') /\
  (forall p report,
     files w' !! p = Some (JsonFile report) ->
     files w !! p <> Some (JsonFile report) ->
     CompleteReport report /\
     exists out referenceImage queryImage referenceResult queryResult,
       res = inr out /\ Verification.reportPath out = p /\
       GatesPassed cfg env w referenceImagePath queryImagePath
         referenceImage queryImage referenceResult queryResult /\
       Forall (fun q => writable env q = true) (artifactPaths env outputDir)) /\
  (forall out,
     res = inr out ->
     exists report,
       files w' !! Verification.reportPath out = Some (JsonFile report) /\
       CompleteReport report).
Proof.
  intros R. run_cases R.
  1-8: split; [intros _; split; [eauto | reflexivity]|];
       split; [intros _; unfold detected; nnr|];
       split; [intros ? ? Hp Hn; exfalso; apply Hn; exact Hp|];
       intros out Ho; discriminate Ho.
  - (* a write failed *)
    match goal with G : GatesPassed _ _ _ _ _ _ _ _ _ |- _ =>
      pose proof (GatesPassed_no_failure _ _ _ _ _ _ _ G) as NF end.
    split; [intros F; contradiction|].
    split; [intros _; assumption|].
    split; [intros ? ? Hp Hn; exfalso; apply Hn; auto|].
    intros out Ho; discriminate Ho.
  - (* the report was persisted *)
    match goal with G : GatesPassed _ _ _ _ _ _ _ _ _ |- _ =>
      pose proof (GatesPassed_no_failure _ _ _ _ _ _ _ G) as NF end.
    match goal with H : generateVerificationReport _ _ _ _ _ _ _ _ = _ |- _ =>
      pose proof (imageData_complete _ _ _ _ _ _ _ _ _ _ _ _ H) as C end.
    split; [intros F; contradiction|].
    split; [intros [e He]; discriminate He|].
    split.
    + intros p' r Hp Hn.
      destruct (decide
        (path_join env outputDir (Report.verificationId report +:+ ".json")
         = p')) as [E|E].
      * rewrite E in Hp. rewrite lookup_written in Hp.
        injection Hp as <-. split; [exact C|].
        do 5 eexists. split; [reflexivity|]. cbn [Verification.reportPath].
        split; [exact E|]. split; eassumption.
      * rewrite lookup_written_ne in Hp by exact E.
        exfalso. apply Hn.
        eapply no_new_report_trans; [|apply files_rendered| exact Hp].
        unfold detected; nnr.
    + intros out Ho. injection Ho as <-. exists report.
      cbn [Verification.reportPath]. split; [apply lookup_written | exact C].
Qed.

(** C1. In every run that returns, the persisted report and the returned
    value carry [isMatch = (faceDistance < threshold)], with the strict
    order: a distance equal to the threshold is no match; and [status] is
    ["VERIFIED"] when [isMatch] is [true] and ["REJECTED"] otherwise. *)
Theorem runVerification_decision
    (referenceImagePath queryImagePath outputDir : string) (w w' : World)
    (out : Verification.t) :
  runVerification cfg env referenceImagePath queryImagePath outputDir w
  = (inr out, w') ->
  exists report,
    files w' !! Verification.reportPath out = Some (JsonFile report) /\
    let r := Report.result report in
    let d := Result.faceDistance r in
    let t := Result.threshold r in
    t = distanceThreshold cfg /\
    Verification.faceDistance out = d /\
    Verification.isMatch out = Result.isMatch r /\
    Result.isMatch r = Qltb d t /\
    (Result.isMatch r = true <-> d < t) /\
    (d == t -> Result.isMatch r = false) /\
    Result.status r = (if Result.isMatch r then "VERIFIED" else "REJECTED") /\
    (Result.status r = "VERIFIED" <-> Result.isMatch r = true) /\
    (Result.status r = "REJECTED" <-> Result.isMatch r = false).
Proof.
  intros R. run_cases R.
  match goal with H : generateVerificationReport _ _ _ _ _ _ _ _ = _ |- _ =>
    apply generateVerificationReport_inv in H; destruct H as (E & _) end.
  exists report. cbn [Verification.reportPath]. split; [apply lookup_written|].
  rewrite E. cbn [Result.isMatch Result.faceDistance Result.threshold
                  Result.status Verification.isMatch
                  Verification.faceDistance].
  set (d := euclideanDistance env _ _).
  repeat split; try (intros H; try rewrite H; try reflexivity).
  - now apply Qltb_lt.
  - now apply Qltb_lt.
  - apply Qltb_ge. rewrite H. apply Qle_refl.
  - destruct (Qltb d (distanceThreshold cfg)); [reflexivity|discriminate H].
  - destruct (Qltb d (distanceThreshold cfg)); [discriminate H|reflexivity].
Qed.

Section Rounding.

Import Floats.


End Rounding.


End PipelineFacts.

(** ** The sample run *)

Lemma sampleRun_returns : sampleRun = (inr sampleVerification, snd sampleRun).
Proof. vm_compute. reflexivity. Defined.

Lemma runVerification_decision_witness :
  exists report,
    files (snd sampleRun) !! "out/verify_1705311845123.json"
    = Some (JsonFile report) /\
    Result.isMatch (Report.result report) = false /\
    Result.status (Report.result report) = "REJECTED".
Proof.
  destruct (runVerification_decision CONFIG sampleEnv "a.jpg" "b.jpg" "out"
              sampleWorld (snd sampleRun) sampleVerification sampleRun_returns)
    as (report & Hf & _ & _ & Hm & _ & _ & _ & Hs & _).
  exists report. split; [exact Hf|].
  rewrite Hs, <- Hm. split; reflexivity.
Defined.


Lemma runVerification_no_partial_report_witness :
  (exists report,
     files (snd sampleRun) !! "out/verify_1705311845123.json"
     = Some (JsonFile report) /\
     CompleteReport report) /\
  files (snd (runVerification CONFIG sampleEnv "c.jpg" "b.jpg" "out"
                sampleWorld))
  = files sampleWorld.
Proof.
  split.
  - destruct (runVerification_no_partial_report CONFIG sampleEnv
                "a.jpg" "b.jpg" "out" sampleWorld (snd sampleRun)
                (inr sampleVerification) sampleRun_returns)
      as (_ & _ & _ & H).
    exact (H sampleVerification eq_refl).
  - destruct (runVerification_no_partial_report CONFIG sampleEnv
                "c.jpg" "b.jpg" "out" sampleWorld _ _
                (surjective_pairing _))
      as (H & _).
    apply H.
    apply (low_score CONFIG sampleEnv sampleWorld "c.jpg" "b.jpg"
             (sampleImage "blurry") (sampleImage "bob")
             (sampleFace "blurry") (sampleFace "bob"));
      try reflexivity.
    left. reflexivity.
Defined.

Lemma runVerification_query_not_found_witness :
  exists e,
    runVerification CONFIG sampleEnv "a.jpg" "missing.jpg" "out" sampleWorld
    = (inl e, sampleWorld) /\
    (files sampleWorld !! "a.jpg" <> None ->
       e = QueryImageNotFound "missing.jpg" /\
       message sampleEnv e = "Query image not found: " +:+ "missing.jpg") /\
    (files sampleWorld !! "a.jpg" = None ->
       e = ReferenceImageNotFound "a.jpg" /\
       message sampleEnv e = "Reference image not found: " +:+ "a.jpg").
Proof.
  apply (runVerification_query_not_found CONFIG sampleEnv
           "a.jpg" "missing.jpg" "out" sampleWorld).
  vm_compute. reflexivity.
Defined.

Lemma runVerification_quality_gate_witness :
  (forall s, fst sampleRun <> inl (LowScoreReference s)) /\
  (forall s, fst sampleRun <> inl (LowScoreQuery s)) /\
  fst (runVerification CONFIG sampleEnv "c.jpg" "b.jpg" "out" sampleWorld)
  = inl (LowScoreReference (65 # 100)).
Proof.
  destruct (runVerification_quality_gate CONFIG sampleEnv
              "a.jpg" "b.jpg" "out" sampleWorld
              (sampleImage "alice") (sampleImage "bob")
              (sampleFace "alice") (sampleFace "bob")
              eq_refl eq_refl eq_refl eq_refl)
    as (_ & _ & _ & _ & Hr & Hq).
  destruct (runVerification_quality_gate CONFIG sampleEnv
              "c.jpg" "b.jpg" "out" sampleWorld
              (sampleImage "blurry") (sampleImage "bob")
              (sampleFace "blurry") (sampleFace "bob")
              eq_refl eq_refl eq_refl eq_refl)
    as (_ & Hl & _).
  split; [apply Hr; reflexivity|].
  split; [apply Hq; reflexivity|].
  apply Hl. reflexivity.
Defined.

(** ** The Euclidean distance *)

Section Distance.

Local Open Scope R_scope.

Lemma fold_squares_acc (diffs : list R) (acc : R) :
  fold_left (fun res diff => res + diff ^ 2) diffs acc
  = acc + fold_left (fun res diff => res + diff ^ 2) diffs 0.
Proof.
  revert acc. induction diffs as [|d diffs IH]; intros acc; cbn [fold_left].
  - ring.
  - rewrite (IH (acc + d ^ 2)), (IH (0 + d ^ 2)). ring.
Qed.

Lemma fold_squares_sum (arr1 arr2 : list R) :
  fold_left (fun res diff => res + diff ^ 2) (zip_with Rminus arr1 arr2) 0
  = faceapi.squaredDifferences arr1 arr2.
Proof.
  revert arr2. induction arr1 as [|a arr1 IH]; intros [|b arr2];
    cbn [zip_with fold_left faceapi.squaredDifferences]; try reflexivity.
  rewrite fold_squares_acc, IH. ring.
Qed.

Lemma squaredDifferences_sym (arr1 arr2 : list R) :
  faceapi.squaredDifferences arr1 arr2 = faceapi.squaredDifferences arr2 arr1.
Proof.
  revert arr2. induction arr1 as [|a arr1 IH]; intros [|b arr2];
    cbn [faceapi.squaredDifferences]; try reflexivity.
  rewrite IH. ring.
Qed.

Lemma squaredDifferences_nonneg (arr1 arr2 : list R) :
  0 <= faceapi.squaredDifferences arr1 arr2.
Proof.
  revert arr2. induction arr1 as [|a arr1 IH]; intros [|b arr2];
    cbn [faceapi.squaredDifferences]; try apply Rle_refl.
  apply Rplus_le_le_0_compat; [apply pow2_ge_0 | apply IH].
Qed.

Lemma squaredDifferences_diag (arr : list R) :
  faceapi.squaredDifferences arr arr = 0.
Proof.
  induction arr as [|a arr IH]; cbn [faceapi.squaredDifferences];
    [reflexivity|].
  rewrite IH. ring.
Qed.

(** C8. For descriptors [a] and [b] of equal dimension the distance is
    defined, it is the Euclidean distance (non-negative, and its square is
    the sum of the squared differences of the components), it is the same
    for [(a, b)] and [(b, a)], and it is [0] when [a = b]. *)
Theorem euclideanDistance_symmetric_nonneg (a b : list R) :
  length a = length b ->
  exists d,
    faceapi.euclideanDistance a b = Some d /\
    faceapi.euclideanDistance b a = Some d /\
    0 <= d /\
    d * d = faceapi.squaredDifferences a b /\
    (a = b -> d = 0).
Proof.
  intros L. unfold faceapi.euclideanDistance.
  rewrite <- L, Nat.eqb_refl.
  rewrite !fold_squares_sum, (squaredDifferences_sym b a).
  eexists. split; [reflexivity|]. split; [reflexivity|].
  split; [apply sqrt_pos|].
  split; [apply sqrt_sqrt, squaredDifferences_nonneg|].
  intros ->. rewrite squaredDifferences_diag. apply sqrt_0.
Qed.

Lemma euclideanDistance_symmetric_nonneg_witness :
  exists d,
    faceapi.euclideanDistance [1; 2] [4; 6] = Some d /\
    faceapi.euclideanDistance [4; 6] [1; 2] = Some d /\
    0 <= d /\
    d * d = faceapi.squaredDifferences [1; 2] [4; 6] /\
    ([1; 2] = [4; 6] -> d = 0).
Proof.
  apply (euclideanDistance_symmetric_nonneg [1; 2] [4; 6]). reflexivity.
Defined.

End Distance.


(** * Further properties of the code *)

(** ** More on the crop rectangle *)

Lemma floor_of_integer (q n : Q) : q == n -> is_integer n -> Math.floor q == n.
Proof.
  intros E I. unfold Math.floor. rewrite (Qfloor_comp q n E). exact I.
Qed.

Lemma axisOrigin_nonneg (x w z : Q) : 0 <= axisOrigin x w z.
Proof. unfold axisOrigin. apply max0_spec. Qed.

Lemma axisOrigin_zero_zoom (x w : Q) : 0 <= x -> axisOrigin x w 0 == x.
Proof.
  intros Hx. unfold axisOrigin.
  destruct (max0_spec (x - w * 0 / 2)) as (_ & H1 & [E|E]);
    rewrite E in *; halves; lra.
Qed.

Lemma axisExtent_zero_zoom (x w W : Q) :
  0 <= x -> x + w <= W -> axisExtent x w 0 W == w.
Proof.
  intros Hx HW. unfold axisExtent.
  assert (Ho := axisOrigin_zero_zoom x w Hx).
  destruct (min_spec (W - axisOrigin x w 0) (w + w * 0)) as (H1 & H2 & [E|E]);
    rewrite E in *; lra.
Qed.

(** X1. With zoom factor [0] an integer box inside the image is returned as
    it is. *)
Theorem calculateZoomedOutBox_zero_zoom
    (box : Box.t) (imageWidth imageHeight : Q) :
  BoundingBox box imageWidth imageHeight ->
  IntegerBox box ->
  let r := calculateZoomedOutBox box 0 imageWidth imageHeight in
  Box.x r == Box.x box /\ Box.y r == Box.y box /\
  Box.width r == Box.width box /\ Box.height r == Box.height box.
Proof.
  intros (Hx & Hy & Hw & Hh & HW & HH) (Ix & Iy & Iw & Ih) r. subst r.
  rewrite calculateZoomedOutBox_axes. cbn [Box.x Box.y Box.width Box.height].
  repeat split; apply floor_of_integer; try assumption.
  - now apply axisOrigin_zero_zoom.
  - now apply axisOrigin_zero_zoom.
  - now apply axisExtent_zero_zoom.
  - now apply axisExtent_zero_zoom.
Qed.

Lemma calculateZoomedOutBox_zero_zoom_witness :
  let r := calculateZoomedOutBox (Box.mk 10 20 30 40) 0 100 80 in
  Box.x r == 10 /\ Box.y r == 20 /\ Box.width r == 30 /\ Box.height r == 40.
Proof.
  apply (calculateZoomedOutBox_zero_zoom (Box.mk 10 20 30 40) 100 80);
    unfold BoundingBox, IntegerBox, is_integer; qcompute.
Defined.

(** X2. A box that covers the whole image is returned as it is, whatever
    the zoom factor [>= 0]: the enlargement is clamped away on all sides. *)
Theorem calculateZoomedOutBox_whole_image
    (zoomFactor imageWidth imageHeight : Q) :
  0 <= zoomFactor ->
  0 < imageWidth -> 0 < imageHeight ->
  is_integer imageWidth -> is_integer imageHeight ->
  let r := calculateZoomedOutBox (Box.mk 0 0 imageWidth imageHeight)
             zoomFactor imageWidth imageHeight in
  Box.x r == 0 /\ Box.y r == 0 /\
  Box.width r == imageWidth /\ Box.height r == imageHeight.
Proof.
  intros Hz HW HH IW IH r. subst r.
  rewrite calculateZoomedOutBox_axes. cbn [Box.x Box.y Box.width Box.height].
  assert (O : forall w, 0 < w -> axisOrigin 0 w zoomFactor == 0).
  { intros w Hw. apply Qle_antisym; [|apply axisOrigin_nonneg].
    apply axisOrigin_le; lra. }
  assert (E : forall w, 0 < w -> axisExtent 0 w zoomFactor w == w).
  { intros w Hw. unfold axisExtent.
    assert (0 <= w * zoomFactor) by (apply Qmult_le_0_compat; lra).
    assert (Ho := O w Hw).
    destruct (min_spec (w - axisOrigin 0 w zoomFactor) (w + w * zoomFactor))
      as (H1 & H2 & [F|F]); rewrite F in *; lra. }
  repeat split; apply floor_of_integer; auto; reflexivity.
Qed.

Lemma calculateZoomedOutBox_whole_image_witness :
  let r := calculateZoomedOutBox (Box.mk 0 0 100 80) (3 # 10) 100 80 in
  Box.x r == 0 /\ Box.y r == 0 /\ Box.width r == 100 /\ Box.height r == 80.
Proof.
  apply (calculateZoomedOutBox_whole_image (3 # 10) 100 80);
    unfold is_integer; qcompute.
Defined.

(** X3. For any box inside the image, with whole or fractional
    coordinates, and any zoom factor [>= 0], the returned box starts at or
    before the original box, and its right and bottom edges lie less than
    two pixels before those of the original box. *)
Theorem calculateZoomedOutBox_fractional_box
    (box : Box.t) (zoomFactor imageWidth imageHeight : Q) :
  BoundingBox box imageWidth imageHeight ->
  0 <= zoomFactor ->
  let r := calculateZoomedOutBox box zoomFactor imageWidth imageHeight in
  Box.x r <= Box.x box /\ Box.y r <= Box.y box /\
  Box.x box + Box.width box - 2 < Box.x r + Box.width r /\
  Box.y box + Box.height box - 2 < Box.y r + Box.height r.
Proof.
  intros (Hx & Hy & Hw & Hh & HW & HH) Hz r. subst r.
  rewrite calculateZoomedOutBox_axes. cbn [Box.x Box.y Box.width Box.height].
  assert (Hw' : 0 <= Box.width box) by lra.
  assert (Hh' : 0 <= Box.height box) by lra.
  assert (Ex := axis_far_edge _ _ _ _ Hx Hw' Hz HW).
  assert (Ey := axis_far_edge _ _ _ _ Hy Hh' Hz HH).
  assert (Ox := axisOrigin_le _ _ _ Hx Hw' Hz).
  assert (Oy := axisOrigin_le _ _ _ Hy Hh' Hz).
  set (ox := axisOrigin (Box.x box) (Box.width box) zoomFactor) in *.
  set (oy := axisOrigin (Box.y box) (Box.height box) zoomFactor) in *.
  set (ex := axisExtent (Box.x box) (Box.width box) zoomFactor imageWidth) in *.
  set (ey := axisExtent (Box.y box) (Box.height box) zoomFactor imageHeight)
    in *.
  assert (A := floor_le ox). assert (B := floor_le oy).
  assert (C := floor_lt ox). assert (D := floor_lt oy).
  assert (E := floor_lt ex). assert (F := floor_lt ey).
  repeat split; lra.
Qed.

Lemma calculateZoomedOutBox_fractional_box_witness :
  let r := calculateZoomedOutBox (Box.mk (21 # 2) (41 # 4) (7 # 2) (9 # 2))
             (3 # 10) 100 80 in
  Box.x r <= 21 # 2 /\ Box.y r <= 41 # 4 /\
  (21 # 2) + (7 # 2) - 2 < Box.x r + Box.width r /\
  (41 # 4) + (9 # 2) - 2 < Box.y r + Box.height r.
Proof.
  apply (calculateZoomedOutBox_fractional_box
           (Box.mk (21 # 2) (41 # 4) (7 # 2) (9 # 2)) (3 # 10) 100 80);
    unfold BoundingBox; qcompute.
Defined.

(** X4. A box inside the image that is at least one pixel wide and high
    gives a crop that is at least one pixel wide and high, also when its
    coordinates are fractional. *)
Theorem calculateZoomedOutBox_nonempty
    (box : Box.t) (zoomFactor imageWidth imageHeight : Q) :
  BoundingBox box imageWidth imageHeight ->
  0 <= zoomFactor ->
  1 <= Box.width box -> 1 <= Box.height box ->
  let r := calculateZoomedOutBox box zoomFactor imageWidth imageHeight in
  1 <= Box.width r /\ 1 <= Box.height r.
Proof.
  intros (Hx & Hy & Hw & Hh & HW & HH) Hz H1 H2 r. subst r.
  rewrite calculateZoomedOutBox_axes. cbn [Box.width Box.height].
  assert (Hw' : 0 <= Box.width box) by lra.
  assert (Hh' : 0 <= Box.height box) by lra.
  assert (Ex := axisExtent_ge _ _ _ _ Hx Hw' Hz HW).
  assert (Ey := axisExtent_ge _ _ _ _ Hy Hh' Hz HH).
  split; apply (floor_ge_integer 1); try reflexivity; lra.
Qed.

Lemma calculateZoomedOutBox_nonempty_witness :
  let r := calculateZoomedOutBox (Box.mk (21 # 2) (41 # 4) (7 # 2) (9 # 2))
             (3 # 10) 100 80 in
  1 <= Box.width r /\ 1 <= Box.height r.
Proof.
  apply (calculateZoomedOutBox_nonempty
           (Box.mk (21 # 2) (41 # 4) (7 # 2) (9 # 2)) (3 # 10) 100 80);
    unfold BoundingBox; qcompute.
Defined.

(** X5. A box whose enlarged width [width * (1 + zoom)] is at most half a
    pixel gives a crop of width [0]. *)
Theorem calculateZoomedOutBox_subpixel
    (box : Box.t) (zoomFactor imageWidth imageHeight : Q) :
  BoundingBox box imageWidth imageHeight ->
  0 <= zoomFactor ->
  Box.width box + Box.width box * zoomFactor <= 1 # 2 ->
  Box.width (calculateZoomedOutBox box zoomFactor imageWidth imageHeight) == 0.
Proof.
  intros (Hx & Hy & Hw & Hh & HW & HH) Hz H1.
  rewrite calculateZoomedOutBox_axes. cbn [Box.width].
  assert (Hw' : 0 <= Box.width box) by lra.
  assert (Ex := axisExtent_ge _ _ _ _ Hx Hw' Hz HW).
  assert (Ux : axisExtent (Box.x box) (Box.width box) zoomFactor imageWidth
               <= Box.width box + Box.width box * zoomFactor)
    by (unfold axisExtent; apply min_spec).
  set (ex := axisExtent (Box.x box) (Box.width box) zoomFactor imageWidth) in *.
  assert (L : 0 <= Math.floor ex) by (apply floor_nonneg; lra).
  assert (U : Math.floor ex <= ex) by apply floor_le.
  unfold Math.floor in *.
  assert (Z : (Qfloor ex < 1)%Z).
  { rewrite Zlt_Qlt. change (inject_Z 1) with 1. lra. }
  assert (Z0 : (0 <= Qfloor ex)%Z).
  { rewrite Zle_Qle. exact L. }
  replace (Qfloor ex) with 0%Z by lia. reflexivity.
Qed.

Lemma calculateZoomedOutBox_subpixel_witness :
  Box.width (calculateZoomedOutBox (Box.mk 10 10 (1 # 4) 5) (3 # 10) 100 80)
  == 0.
Proof.
  apply (calculateZoomedOutBox_subpixel (Box.mk 10 10 (1 # 4) 5) (3 # 10) 100 80);
    unfold BoundingBox; qcompute.
Defined.

(** X7. A larger zoom factor never moves the returned origin to the right
    or downwards. *)
Theorem calculateZoomedOutBox_origin_antitone
    (box : Box.t) (z1 z2 imageWidth imageHeight : Q) :
  0 <= Box.width box -> 0 <= Box.height box ->
  z1 <= z2 ->
  Box.x (calculateZoomedOutBox box z2 imageWidth imageHeight) <=
    Box.x (calculateZoomedOutBox box z1 imageWidth imageHeight) /\
  Box.y (calculateZoomedOutBox box z2 imageWidth imageHeight) <=
    Box.y (calculateZoomedOutBox box z1 imageWidth imageHeight).
Proof.
  intros Hw Hh Hz.
  rewrite !calculateZoomedOutBox_axes. cbn [Box.x Box.y].
  split; apply floor_mono, axisOrigin_antitone; assumption.
Qed.

Lemma calculateZoomedOutBox_origin_antitone_witness :
  Box.x (calculateZoomedOutBox (Box.mk 10 10 3 3) 1 100 80) <=
    Box.x (calculateZoomedOutBox (Box.mk 10 10 3 3) (3 # 10) 100 80) /\
  Box.y (calculateZoomedOutBox (Box.mk 10 10 3 3) 1 100 80) <=
    Box.y (calculateZoomedOutBox (Box.mk 10 10 3 3) (3 # 10) 100 80).
Proof.
  apply (calculateZoomedOutBox_origin_antitone (Box.mk 10 10 3 3) (3 # 10) 1 100 80);
    qcompute.
Defined.

(** ** The directory of a run *)

Lemma replaceColonDot_char_clean (c : ascii) :
  replaceColonDot_char c <> ":"%char /\ replaceColonDot_char c <> "."%char.
Proof.
  unfold replaceColonDot_char.
  destruct (Ascii.eqb c ":") eqn:E1; [split; discriminate|].
  destruct (Ascii.eqb c ".") eqn:E2; [split; discriminate|].
  cbn [orb]. apply Ascii.eqb_neq in E1. apply Ascii.eqb_neq in E2. auto.
Qed.

Lemma replaceColonDot_char_keeps (c : ascii) :
  c <> ":"%char -> c <> "."%char -> replaceColonDot_char c = c.
Proof.
  intros H1 H2. unfold replaceColonDot_char.
  apply Ascii.eqb_neq in H1. apply Ascii.eqb_neq in H2.
  now rewrite H1, H2.
Qed.

(** X8. The text that [replace(/[:.]/g, "-")] returns has the length of its
    argument and contains neither [:] nor [.]; every other character stays
    where it was. *)
Theorem replaceColonDot_clean (s : string) :
  String.length (replaceColonDot s) = String.length s /\
  (forall n c, String.get n (replaceColonDot s) = Some c ->
     c <> ":"%char /\ c <> "."%char) /\
  (forall n c, String.get n s = Some c -> c <> ":"%char -> c <> "."%char ->
     String.get n (replaceColonDot s) = Some c).
Proof.
  induction s as [|a s (IHl & IHc & IHk)]; cbn [replaceColonDot String.length].
  - split; [reflexivity|]. split; intros k c H; destruct k; discriminate H.
  - split; [now rewrite IHl|]. split.
    + intros [|k] c H; cbn [String.get] in H.
      * injection H as <-. apply replaceColonDot_char_clean.
      * now apply (IHc k).
    + intros [|k] c H H1 H2; cbn [String.get] in *.
      * injection H as ->. now rewrite replaceColonDot_char_keeps.
      * now apply IHk.
Qed.

(** X9. [replace(/[:.]/g, "-")] changes nothing the second time: its
    result is a fixed point. *)
Theorem replaceColonDot_idempotent (s : string) :
  replaceColonDot (replaceColonDot s) = replaceColonDot s.
Proof.
  induction s as [|a s IH]; cbn [replaceColonDot]; [reflexivity|].
  rewrite IH. f_equal.
  destruct (replaceColonDot_char_clean a) as [H1 H2].
  now apply replaceColonDot_char_keeps.
Qed.

Example replaceColonDot_sample :
  replaceColonDot "2024-01-15T10:30:45.123Z" = "2024-01-15T10-30-45-123Z".
Proof. reflexivity. Qed.

(** Splits a conjunction into its parts, without introducing anything. *)
Ltac split_ands := repeat match goal with |- _ /\ _ => split end.

Section MainFacts.

Variable cfg : Config.
Variable env : Env.
Variable host : Host.

(** X10. [createTimestampedDirectory] leaves the files, the console and
    the exit code alone and removes no directory.  When it returns, the
    returned path exists and is the normalised timestamp under
    [baseOutputDir]; when the path existed already, or when [mkdirSync]
    throws, the process is unchanged. *)
Theorem createTimestampedDirectory_spec (p p' : Process)
    (res : Error + string) :
  createTimestampedDirectory env host p = (res, p') ->
  let outputDir :=
    path_join env (baseOutputDir env host)
      (replaceColonDot (toISOString env (clock (world p)))) in
  world p' = world p /\ stdout p' = stdout p /\ stderr p' = stderr p /\
  exitCode p' = exitCode p /\
  directories p ⊆ directories p' /\
  (forall d, res = inr d -> d = outputDir /\ path_exists d p' = true) /\
  (path_exists outputDir p = true -> res = inr outputDir /\ p' = p) /\
  (forall e, res = inl e -> p' = p /\ mkdir_ok host outputDir = false).
Proof.
  unfold createTimestampedDirectory. cbv zeta.
  set (outputDir := path_join env (baseOutputDir env host) _). intros H.
  destruct (path_exists outputDir p) eqn:E; cbn [negb] in H.
  - injection H as <- <-. split_ands; try reflexivity.
    + intros d [= <-]. split; [reflexivity | exact E].
    + intros _. split; reflexivity.
    + intros e [=].
  - destruct (mkdir_ok host outputDir) eqn:K; injection H as <- <-;
      cbn [world stdout stderr exitCode directories]; split_ands;
      try reflexivity; try (intros; discriminate).
    + set_solver.
    + intros d [= <-]. split; [reflexivity|]. unfold path_exists.
      cbn [world directories].
      destruct (files (world p) !! outputDir); [reflexivity|].
      apply bool_decide_eq_true. set_solver.
    + intros e [=]. split; reflexivity.
Qed.

End MainFacts.

Lemma createTimestampedDirectory_spec_witness :
  let p' := snd (createTimestampedDirectory sampleEnv sampleHost sampleProcess) in
  world p' = world sampleProcess /\
  path_exists "/app/verification_reports/2024-01-15T10-30-45-123Z" p' = true.
Proof.
  destruct (createTimestampedDirectory_spec sampleEnv sampleHost sampleProcess
              _ _ (surjective_pairing _))
    as (Hw & _ & _ & _ & _ & Hd & _).
  split; [exact Hw|].
  exact (proj2 (Hd _ eq_refl)).
Defined.

(** ** More on the pipeline *)

Section PipelineExtras.

Variable cfg : Config.
Variable env : Env.

Ltac unfold_pipeline :=
  unfold runVerification, extractAndSaveFace, drawFaceDetection,
    generateVerificationReport, saveVerificationReport,
    canvas_loadImage, faceapi_detectSingleFace, fs_existsSync,
    fs_writeFileSync, Date_now, throw, mbind, mret, M_bind, M_ret in *.

Ltac outcome_cases R :=
  match type of R with
  | runVerification ?c ?e ?ref ?qry ?od ?w = _ =>
      let O := fresh "O" in
      pose proof (runVerification_outcome c e ref qry od w) as O;
      rewrite R in O; inversion O; subst; clear O;
      repeat match goal with x := _ |- _ => subst x end
  end.

Lemma generateVerificationReport_value referenceData queryData d isMatch od w
    report w' :
  generateVerificationReport cfg env referenceData queryData d isMatch od w
  = (inr report, w') ->
  w' = w /\
  Report.verificationId report
  = "verify_" +:+ Number_toString env (inject_Z (clock w)) /\
  Report.outputDirectory report = path_basename env od /\
  Report.referenceImage report =
    {| ImageSection.filename :=
         path_basename env (ImageData.imagePath referenceData);
       ImageSection.faceDetected := ImageData.faceDetected referenceData;
       ImageSection.detectionScore := ImageData.detectionScore referenceData;
       ImageSection.faceFile := ImageData.faceFile referenceData;
       ImageSection.coordinates := ImageData.coordinates referenceData;
       ImageSection.imageDimensions :=
         ImageData.imageDimensions referenceData |} /\
  Report.queryImage report =
    {| ImageSection.filename :=
         path_basename env (ImageData.imagePath queryData);
       ImageSection.faceDetected := ImageData.faceDetected queryData;
       ImageSection.detectionScore := ImageData.detectionScore queryData;
       ImageSection.faceFile := ImageData.faceFile queryData;
       ImageSection.coordinates := ImageData.coordinates queryData;
       ImageSection.imageDimensions := ImageData.imageDimensions queryData |}.
Proof.
  unfold generateVerificationReport, Date_now, mbind, mret, M_bind, M_ret.
  intros [= <- <-]. cbn. auto.
Qed.

(** What a run does once the gates are passed: five writes in a row, each
    of which can fail. *)
Lemma runVerification_after_gates ref qry od w ri qi rr qr :
  GatesPassed cfg env w ref qry ri qi rr qr ->
  exists report,
    generateVerificationReport cfg env
      (imageData cfg ref ri rr "reference") (imageData cfg qry qi qr "query")
      (euclideanDistance env (FaceResult.descriptor rr)
                             (FaceResult.descriptor qr))
      (Qltb (euclideanDistance env (FaceResult.descriptor rr)
                                   (FaceResult.descriptor qr))
            (distanceThreshold cfg))
      od w = (inr report, w) /\
    let w0 := detected ref qry ri qi w in
    let p1 := path_join env od (faceFilename "reference") in
    let p2 := path_join env od (faceFilename "query") in
    let p3 := path_join env od "reference_detection.jpg" in
    let p4 := path_join env od "query_detection.jpg" in
    let p5 := path_join env od (Report.verificationId report +:+ ".json") in
    let w1 :=
      write p1 (ImageFile (cropToJpeg env ri (zoomedBox cfg ri rr))) w0 in
    let w2 :=
      write p2 (ImageFile (cropToJpeg env qi (zoomedBox cfg qi qr))) w1 in
    let w3 := write p3 (ImageFile (overlayToJpeg env ri rr)) w2 in
    let w4 := write p4 (ImageFile (overlayToJpeg env qi qr)) w3 in
    w4 = rendered cfg env od ri qi rr qr w0 /\
    runVerification cfg env ref qry od w =
    if writable env p1 then
      if writable env p2 then
        if writable env p3 then
          if writable env p4 then
            if writable env p5 then
              (inr {| Verification.isMatch :=
                        Qltb (euclideanDistance env
                                (FaceResult.descriptor rr)
                                (FaceResult.descriptor qr))
                             (distanceThreshold cfg);
                      Verification.faceDistance :=
                        euclideanDistance env (FaceResult.descriptor rr)
                                              (FaceResult.descriptor qr);
                      Verification.confidence :=
                        Result.confidence (Report.result report);
                      Verification.referenceScore :=
                        Detection.score (FaceResult.detection rr);
                      Verification.queryScore :=
                        Detection.score (FaceResult.detection qr);
                      Verification.reportPath := p5;
                      Verification.referenceFace := faceFilename "reference";
                      Verification.queryFace := faceFilename "query";
                      Verification.outputDir := od |},
               write p5 (JsonFile report) w4)
            else (inl (CollaboratorError ("EACCES: " +:+ p5)), w4)
          else (inl (CollaboratorError ("EACCES: " +:+ p4)), w3)
        else (inl (CollaboratorError ("EACCES: " +:+ p3)), w2)
      else (inl (CollaboratorError ("EACCES: " +:+ p2)), w1)
    else (inl (CollaboratorError ("EACCES: " +:+ p1)), w0).
Proof.
  intros [Dr Dq Er Eq Sr Sq].
  eexists. split.
  { unfold generateVerificationReport, Date_now, mbind, mret, M_bind, M_ret.
    reflexivity. }
  cbv zeta. split; [reflexivity|].
  assert (Fr : exists fr, files w !! ref = Some fr)
    by (destruct (files w !! ref); [eauto | discriminate Dr]).
  assert (Fq : exists fq, files w !! qry = Some fq)
    by (destruct (files w !! qry); [eauto | discriminate Dq]).
  destruct Fr as [fr Fr]. destruct Fq as [fq Fq].
  unfold_pipeline. cbn beta iota zeta.
  rewrite Fr. cbn [negb]. rewrite Fq. cbn [negb log files].
  rewrite Fr, Fq in *. rewrite Dr, Dq, Er, Eq, Sr, Sq.
  unfold faceFilename, zoomedBox, write, log, detected. cbn.
  repeat (match goal with
          | |- context [if writable env ?p then _ else _] =>
              destruct (writable env p)
          end; cbn [clock]); reflexivity.
Qed.

Lemma events_log ev w : events (log ev w) = events w ++ [ev].
Proof. reflexivity. Qed.

Lemma GatesPassed_unique w ref qry ri qi rr qr ri' qi' rr' qr' :
  GatesPassed cfg env w ref qry ri qi rr qr ->
  GatesPassed cfg env w ref qry ri' qi' rr' qr' ->
  ri' = ri /\ qi' = qi /\ rr' = rr /\ qr' = qr.
Proof.
  intros [Dr Dq Er Eq _ _] [Dr' Dq' Er' Eq' _ _].
  assert (ri' = ri) by congruence. assert (qi' = qi) by congruence.
  subst. repeat split; congruence.
Qed.

(** A run that returns, read backwards. *)
Lemma runVerification_inr_inv ref qry od w out w' :
  runVerification cfg env ref qry od w = (inr out, w') ->
  exists ri qi rr qr report,
    GatesPassed cfg env w ref qry ri qi rr qr /\
    generateVerificationReport cfg env
      (imageData cfg ref ri rr "reference") (imageData cfg qry qi qr "query")
      (Verification.faceDistance out) (Verification.isMatch out) od w
    = (inr report, w) /\
    Verification.faceDistance out
    = euclideanDistance env (FaceResult.descriptor rr)
                            (FaceResult.descriptor qr) /\
    Verification.isMatch out
    = Qltb (Verification.faceDistance out) (distanceThreshold cfg) /\
    Verification.confidence out = Result.confidence (Report.result report) /\
    Verification.referenceScore out
    = Detection.score (FaceResult.detection rr) /\
    Verification.queryScore out = Detection.score (FaceResult.detection qr) /\
    Verification.reportPath out
    = path_join env od (Report.verificationId report +:+ ".json") /\
    Verification.referenceFace out = "face_reference.jpg" /\
    Verification.queryFace out = "face_query.jpg" /\
    Verification.outputDir out = od /\
    w' = write (Verification.reportPath out) (JsonFile report)
           (rendered cfg env od ri qi rr qr (detected ref qry ri qi w)).
Proof.
  intros R. outcome_cases R.
  match goal with G : GatesPassed _ _ _ _ _ _ _ _ _ |- _ =>
    exists referenceImage, queryImage, referenceResult, queryResult, report;
    split; [exact G|] end.
  cbn [Verification.faceDistance Verification.isMatch Verification.confidence
       Verification.referenceScore Verification.queryScore
       Verification.reportPath Verification.referenceFace
       Verification.queryFace Verification.outputDir].
  split_ands; try reflexivity.
  match goal with H : generateVerificationReport _ _ _ _ _ _ _ _ = _ |- _ =>
    unfold generateVerificationReport, Date_now, mbind, mret, M_bind, M_ret
      in H |- *;
    injection H as <-; reflexivity end.
Qed.

(** X11. When both images decode, a face is found in each, both scores
    pass and the five output paths can be written, [runVerification]
    returns; the value it returns carries the two detection scores, the
    distance of the two descriptors, the two crop names, the output
    directory, and the path [<outputDir>/verify_<clock>.json], where the
    report then is. *)
Theorem runVerification_returns
    (referenceImagePath queryImagePath outputDir : string) (w : World)
    (referenceImage queryImage : Image.t)
    (referenceResult queryResult : FaceResult.t) :
  GatesPassed cfg env w referenceImagePath queryImagePath
    referenceImage queryImage referenceResult queryResult ->
  Forall (fun p => writable env p = true) (artifactPaths env outputDir) ->
  writable env (path_join env outputDir (reportFileName env w)) = true ->
  exists out w' report,
    runVerification cfg env referenceImagePath queryImagePath outputDir w
    = (inr out, w') /\
    Verification.reportPath out
    = path_join env outputDir (reportFileName env w) /\
    files w' !! Verification.reportPath out = Some (JsonFile report) /\
    Verification.referenceScore out
    = Detection.score (FaceResult.detection referenceResult) /\
    Verification.queryScore out
    = Detection.score (FaceResult.detection queryResult) /\
    Verification.faceDistance out
    = euclideanDistance env (FaceResult.descriptor referenceResult)
                            (FaceResult.descriptor queryResult) /\
    Verification.referenceFace out = "face_reference.jpg" /\
    Verification.queryFace out = "face_query.jpg" /\
    Verification.outputDir out = outputDir.
Proof.
  intros G A W5.
  destruct (runVerification_after_gates referenceImagePath queryImagePath
              outputDir w _ _ _ _ G) as (report & Hg & _ & Hrun).
  apply generateVerificationReport_value in Hg.
  destruct Hg as (_ & Hid & _).
  cbv zeta in Hrun. rewrite Hid in Hrun. fold (reportFileName env w) in Hrun.
  unfold artifactPaths in A.
  repeat match goal with
         | H : Forall _ (_ :: _) |- _ =>
             apply Forall_cons_iff in H; destruct H as [? H]
         end.
  repeat match goal with
         | H : writable env _ = true |- _ => rewrite H in Hrun; clear H
         end.
  do 3 eexists. split; [exact Hrun|].
  cbn [Verification.reportPath Verification.referenceScore
       Verification.queryScore Verification.faceDistance
       Verification.referenceFace Verification.queryFace
       Verification.outputDir].
  split_ands; try reflexivity. apply lookup_written.
Qed.

(** X12. A run that returns has called its collaborators in this order:
    it loaded the reference image, loaded the query image, ran the
    detection on the reference image, ran it on the query image, wrote the
    reference crop, the query crop, the reference overlay, the query
    overlay, and last of all the report. *)
Theorem runVerification_event_order
    (referenceImagePath queryImagePath outputDir : string) (w w' : World)
    (out : Verification.t) :
  runVerification cfg env referenceImagePath queryImagePath outputDir w
  = (inr out, w') ->
  exists referenceImage queryImage,
    decodeFile env referenceImagePath (files w !! referenceImagePath)
    = inr referenceImage /\
    decodeFile env queryImagePath (files w !! queryImagePath)
    = inr queryImage /\
    events w' =
      events w ++
      [ LoadImage referenceImagePath;
        LoadImage queryImagePath;
        DetectSingleFace referenceImage;
        DetectSingleFace queryImage;
        WriteFile (path_join env outputDir "face_reference.jpg");
        WriteFile (path_join env outputDir "face_query.jpg");
        WriteFile (path_join env outputDir "reference_detection.jpg");
        WriteFile (path_join env outputDir "query_detection.jpg");
        WriteFile (Verification.reportPath out) ].
Proof.
  intros R. apply runVerification_inr_inv in R.
  destruct R as (ri & qi & rr & qr & report & [Dr Dq _ _ _ _] & _ & _ & _ & _
                 & _ & _ & _ & _ & _ & _ & ->).
  exists ri, qi. split; [exact Dr|]. split; [exact Dq|].
  unfold write, rendered, detected, write, log. cbn [events].
  repeat rewrite <- app_assoc. reflexivity.
Qed.

(** X13. Whatever its outcome, a run leaves the clock alone, only adds to
    the log of collaborator calls, and changes no file other than its four
    image files and the report file [<outputDir>/verify_<clock>.json]:
    in particular it never removes a file and never touches its inputs
    when they lie elsewhere. *)
Theorem runVerification_frame
    (referenceImagePath queryImagePath outputDir : string) (w w' : World)
    (res : Error + Verification.t) :
  runVerification cfg env referenceImagePath queryImagePath outputDir w
  = (res, w') ->
  clock w' = clock w /\
  (exists l, events w' = events w ++ l) /\
  (forall p,
     p ∉ artifactPaths env outputDir ->
     p <> path_join env outputDir (reportFileName env w) ->
     files w' !! p = files w !! p).
Proof.
  intros R.
  assert (Pre :
    (clock w' = clock w /\ (exists l, events w' = events w ++ l) /\
     files w' = files w) \/
    exists ri qi rr qr,
      GatesPassed cfg env w referenceImagePath queryImagePath ri qi rr qr).
  { pose proof R as R'. outcome_cases R'; try (right; eauto 8; fail); left;
      (split; [reflexivity|]); (split; [|reflexivity]);
      unfold detected; rewrite ?events_log, <- ?app_assoc; eauto;
      exists []; now rewrite app_nil_r. }
  destruct Pre as [(Hc & He & Hf) | (ri & qi & rr & qr & G)].
  { split; [exact Hc|]. split; [exact He|]. intros p _ _. now rewrite Hf. }
  destruct (runVerification_after_gates referenceImagePath queryImagePath
              outputDir w _ _ _ _ G) as (report & Hg & _ & Hrun).
  apply generateVerificationReport_value in Hg.
  destruct Hg as (_ & Hid & _).
  cbv zeta in Hrun. rewrite Hid in Hrun. fold (reportFileName env w) in Hrun.
  rewrite R in Hrun.
  assert (Frame : forall p,
    p ∉ artifactPaths env outputDir ->
    p <> path_join env outputDir (reportFileName env w) ->
    forall q data v, (q ∈ artifactPaths env outputDir \/
                      q = path_join env outputDir (reportFileName env w)) ->
    files (write q data v) !! p = files v !! p).
  { intros p Hp Hn q data v [Hq | ->]; apply lookup_written_ne; congruence. }
  repeat match type of Hrun with
         | _ = (if writable env ?p then _ else _) =>
             destruct (writable env p)
         end;
    injection Hrun as -> ->;
    (split; [reflexivity|]);
    (split;
     [ unfold write, detected, log; cbn [events];
       rewrite <- ?app_assoc; eauto
     | intros p Hp Hn;
       repeat (rewrite (Frame p Hp Hn);
               [| first [ right; reflexivity
                        | left; unfold artifactPaths; set_solver ] ]);
       reflexivity ]).
Qed.

Lemma written_is_Some p q data w :
  p = q \/ is_Some (files w !! q) -> is_Some (files (write p data w) !! q).
Proof.
  intros H. destruct (decide (p = q)) as [->|Hne].
  - rewrite lookup_written. eauto.
  - rewrite lookup_written_ne by exact Hne. destruct H; [contradiction|auto].
Qed.

(** X14. When everything succeeds except the last write, the one of the
    report, the run throws the error of that write; the four image files
    are there by then and stay, but no report is. *)
Theorem runVerification_report_write_fails
    (referenceImagePath queryImagePath outputDir : string) (w : World)
    (referenceImage queryImage : Image.t)
    (referenceResult queryResult : FaceResult.t) :
  GatesPassed cfg env w referenceImagePath queryImagePath
    referenceImage queryImage referenceResult queryResult ->
  Forall (fun p => writable env p = true) (artifactPaths env outputDir) ->
  writable env (path_join env outputDir (reportFileName env w)) = false ->
  exists w',
    runVerification cfg env referenceImagePath queryImagePath outputDir w
    = (inl (CollaboratorError
              ("EACCES: " +:+ path_join env outputDir (reportFileName env w))),
       w') /\
    (forall p, p ∈ artifactPaths env outputDir -> is_Some (files w' !! p)) /\
    no_new_report w w'.
Proof.
  intros G A W5.
  destruct (runVerification_after_gates referenceImagePath queryImagePath
              outputDir w _ _ _ _ G) as (report & Hg & _ & Hrun).
  apply generateVerificationReport_value in Hg.
  destruct Hg as (_ & Hid & _).
  cbv zeta in Hrun. rewrite Hid in Hrun. fold (reportFileName env w) in Hrun.
  unfold artifactPaths in A.
  repeat match goal with
         | H : Forall _ (_ :: _) |- _ =>
             apply Forall_cons_iff in H; destruct H as [? H]
         end.
  repeat match goal with
         | H : writable env _ = _ |- _ => rewrite H in Hrun; clear H
         end.
  eexists. split; [exact Hrun|]. split.
  - intros p Hp. unfold artifactPaths in Hp.
    rewrite !elem_of_cons, elem_of_nil in Hp.
    destruct Hp as [->|[->|[->|[->|[]]]]];
      repeat (apply written_is_Some; first [left; reflexivity | right]).
  - unfold detected.
    repeat first
      [ apply no_new_report_refl
      | eapply no_new_report_trans; [|apply no_new_report_write_image]
      | eapply no_new_report_trans; [|apply no_new_report_log] ].
Qed.

(** X15. When the reference image path does not exist the run throws the
    reference not-found error and leaves the world untouched, whether or
    not the query image exists. *)
Theorem runVerification_reference_not_found
    (referenceImagePath queryImagePath outputDir : string) (w : World) :
  files w !! referenceImagePath = None ->
  runVerification cfg env referenceImagePath queryImagePath outputDir w
  = (inl (ReferenceImageNotFound referenceImagePath), w).
Proof.
  intros H. unfold_pipeline. cbn beta iota zeta. rewrite H. reflexivity.
Qed.

(** X16. Both images are loaded and both detections are run before the
    results are looked at: when no face is found, the log shows the two
    loads and the two detections, and no file was written.  A reference
    image without a face is reported even when the query image has none
    either. *)
Theorem runVerification_no_face
    (referenceImagePath queryImagePath outputDir : string) (w : World)
    (referenceImage queryImage : Image.t) :
  decodeFile env referenceImagePath (files w !! referenceImagePath)
  = inr referenceImage ->
  decodeFile env queryImagePath (files w !! queryImagePath)
  = inr queryImage ->
  detectSingleFace env referenceImage = None \/
  detectSingleFace env queryImage = None ->
  exists e w',
    runVerification cfg env referenceImagePath queryImagePath outputDir w
    = (inl e, w') /\
    (detectSingleFace env referenceImage = None -> e = NoFaceInReference) /\
    (detectSingleFace env referenceImage <> None -> e = NoFaceInQuery) /\
    files w' = files w /\
    events w' =
      events w ++
      [ LoadImage referenceImagePath; LoadImage queryImagePath;
        DetectSingleFace referenceImage; DetectSingleFace queryImage ].
Proof.
  intros Dr Dq N.
  destruct (runVerification cfg env referenceImagePath queryImagePath
              outputDir w) as [res w'] eqn:R.
  assert (Hr := decodeFile_inr _ _ _ _ Dr).
  assert (Hq := decodeFile_inr _ _ _ _ Dq).
  outcome_cases R; try contradiction;
    try match goal with
        | H : GatesPassed _ _ _ _ _ _ _ _ _ |- _ => destruct H
        end;
    repeat match goal with
           | H1 : ?x = inr ?a, H2 : ?x = inr ?b |- _ =>
               assert (a = b) by congruence; subst b; clear H2
           end;
    try congruence;
    try (destruct N; congruence).
  all: do 2 eexists; split; [reflexivity|];
    split; [intros; congruence|]; split; [intros; congruence|];
    split; [reflexivity|];
    unfold detected; rewrite !events_log, <- !app_assoc; reflexivity.
Qed.

(** X17. When both input paths exist and the reference file cannot be
    decoded, the run throws the error of the decoder right away: the query
    image is not loaded and no detection is run. *)
Theorem runVerification_reference_unreadable
    (referenceImagePath queryImagePath outputDir : string) (w : World)
    (e : Error) :
  files w !! referenceImagePath <> None ->
  files w !! queryImagePath <> None ->
  decodeFile env referenceImagePath (files w !! referenceImagePath) = inl e ->
  runVerification cfg env referenceImagePath queryImagePath outputDir w
  = (inl e, log (LoadImage referenceImagePath) w) /\
  events (log (LoadImage referenceImagePath) w)
  = events w ++ [LoadImage referenceImagePath].
Proof.
  intros Hr Hq D. split; [|reflexivity].
  destruct (runVerification cfg env referenceImagePath queryImagePath
              outputDir w) as [res w'] eqn:R.
  outcome_cases R; try contradiction;
    try match goal with
        | H : GatesPassed _ _ _ _ _ _ _ _ _ |- _ => destruct H
        end;
    congruence.
Qed.

(** X18. In the report of a run that returns, the crop rectangle of each
    image has whole-number coordinates and lies inside the image
    dimensions recorded for that image in the same report. *)
Theorem runVerification_report_coordinates
    (referenceImagePath queryImagePath outputDir : string) (w w' : World)
    (out : Verification.t) :
  runVerification cfg env referenceImagePath queryImagePath outputDir w
  = (inr out, w') ->
  exists report,
    files w' !! Verification.reportPath out = Some (JsonFile report) /\
    forall section,
      section = Report.referenceImage report \/
      section = Report.queryImage report ->
      let box := ImageSection.coordinates section in
      let dimensions := ImageSection.imageDimensions section in
      IntegerBox box /\
      0 <= Box.x box /\ 0 <= Box.y box /\
      Box.x box + Box.width box <= Dimensions.width dimensions /\
      Box.y box + Box.height box <= Dimensions.height dimensions.
Proof.
  intros R. apply runVerification_inr_inv in R.
  destruct R as (ri & qi & rr & qr & report & _ & Hg & _ & _ & _ & _ & _ & _
                 & _ & _ & _ & ->).
  apply generateVerificationReport_value in Hg.
  destruct Hg as (_ & _ & _ & Sr & Sq).
  exists report. split; [apply lookup_written|].
  intros section [-> | ->]; [rewrite Sr | rewrite Sq];
    cbn [ImageSection.coordinates ImageSection.imageDimensions imageData
         ImageData.coordinates ImageData.imageDimensions
         Dimensions.width Dimensions.height];
    unfold zoomedBox, IntegerBox;
    rewrite calculateZoomedOutBox_axes;
    cbn [Box.x Box.y Box.width Box.height];
    match goal with
    | |- context [axisExtent ?x ?w ?z ?W] =>
        destruct (axis_inside x w z W) as [Hx Hxw]
    end;
    match goal with
    | |- context [axisExtent (Box.y ?b) ?h ?z ?H] =>
        destruct (axis_inside (Box.y b) h z H) as [Hy Hyh]
    end;
    split_ands; try apply floor_integer; assumption.
Qed.

(** X19. The report of a run that returns agrees with the value the run
    returns (distance, decision, confidence, both scores), records
    detection scores that are at least [faceQuality], names each input by
    the basename of its path and the output directory by its basename, and
    is stored under its own [verificationId]. *)
Theorem runVerification_report_consistent
    (referenceImagePath queryImagePath outputDir : string) (w w' : World)
    (out : Verification.t) :
  runVerification cfg env referenceImagePath queryImagePath outputDir w
  = (inr out, w') ->
  exists report,
    files w' !! Verification.reportPath out = Some (JsonFile report) /\
    Verification.reportPath out
    = path_join env outputDir (Report.verificationId report +:+ ".json") /\
    Result.faceDistance (Report.result report) = Verification.faceDistance out /\
    Result.isMatch (Report.result report) = Verification.isMatch out /\
    Result.confidence (Report.result report) = Verification.confidence out /\
    ImageSection.detectionScore (Report.referenceImage report)
    = Verification.referenceScore out /\
    ImageSection.detectionScore (Report.queryImage report)
    = Verification.queryScore out /\
    faceQuality cfg <= Verification.referenceScore out /\
    faceQuality cfg <= Verification.queryScore out /\
    ImageSection.filename (Report.referenceImage report)
    = path_basename env referenceImagePath /\
    ImageSection.filename (Report.queryImage report)
    = path_basename env queryImagePath /\
    ImageSection.faceFile (Report.referenceImage report)
    = Verification.referenceFace out /\
    ImageSection.faceFile (Report.queryImage report)
    = Verification.queryFace out /\
    Report.outputDirectory report = path_basename env outputDir.
Proof.
  intros R. apply runVerification_inr_inv in R.
  destruct R as (ri & qi & rr & qr & report & [_ _ _ _ Qr Qq] & Hg & _ & _
                 & Hc & Hsr & Hsq & Hp & Hfr & Hfq & _ & ->).
  pose proof (generateVerificationReport_inv _ _ _ _ _ _ _ _ _ _ Hg)
    as (Hres & _).
  apply generateVerificationReport_value in Hg.
  destruct Hg as (_ & _ & Hod & Sr & Sq).
  apply Qltb_ge in Qr. apply Qltb_ge in Qq.
  exists report. split; [apply lookup_written|].
  rewrite Hres, Sr, Sq, Hsr, Hsq, Hfr, Hfq, Hod.
  rewrite Hc, Hres.
  cbn. split_ands; try reflexivity; assumption.
Qed.

(** X20. With a positive threshold, a run that returns says [isMatch]
    exactly when the confidence it returns is positive. *)
Theorem runVerification_match_iff_confident
    (referenceImagePath queryImagePath outputDir : string) (w w' : World)
    (out : Verification.t) :
  0 < distanceThreshold cfg ->
  runVerification cfg env referenceImagePath queryImagePath outputDir w
  = (inr out, w') ->
  (Verification.isMatch out = true <-> 0 < Verification.confidence out).
Proof.
  intros Ht R. apply runVerification_inr_inv in R.
  destruct R as (ri & qi & rr & qr & report & _ & Hg & _ & Hm & Hc & _).
  pose proof (generateVerificationReport_inv _ _ _ _ _ _ _ _ _ _ Hg)
    as (Hres & _).
  rewrite Hc, Hres, Hm. cbn [Result.confidence].
  set (d := Verification.faceDistance out).
  set (t := distanceThreshold cfg) in *.
  set (q := d / t).
  assert (Hq : q * t == d)
    by (unfold q; field; intros Z; rewrite Z in Ht; now apply Qlt_irrefl in Ht).
  destruct (max0_spec (1 - q)) as (M0 & M1 & M).
  rewrite Qltb_lt. split.
  - intros Hlt. assert (q < 1).
    { apply Qnot_le_lt. intros L.
      assert (1 * t <= q * t) by (apply Qmult_le_compat_r; lra). lra. }
    lra.
  - intros Hpos. assert (q < 1) by (destruct M as [E|E]; lra).
    assert (q * t < 1 * t) by (apply Qmult_lt_compat_r; lra). lra.
Qed.

(** X21. When [extractAndSaveFace] returns, the file at the path it
    returns holds the crop of exactly the rectangle it returns, that
    rectangle lies inside the image, the file is named
    [face_<imageName>.jpg] inside the output directory, and no other file
    has changed; when the write fails it throws and changes nothing. *)
Theorem extractAndSaveFace_spec
    (image : Image.t) (detection : FaceResult.t)
    (imageName outputDir : string) (w w' : World)
    (res : Error + FaceData.t) :
  extractAndSaveFace cfg env image detection imageName outputDir w
  = (res, w') ->
  (forall e, res = inl e -> w' = w) /\
  (forall faceData, res = inr faceData ->
     FaceData.filename faceData = ("face_" +:+ imageName +:+ ".jpg") /\
     FaceData.path faceData
     = path_join env outputDir (FaceData.filename faceData) /\
     FaceData.detectionScore faceData
     = Detection.score (FaceResult.detection detection) /\
     files w' !! FaceData.path faceData
     = Some (ImageFile
               (cropToJpeg env image (FaceData.coordinates faceData))) /\
     (forall p, p <> FaceData.path faceData ->
        files w' !! p = files w !! p) /\
     0 <= Box.x (FaceData.coordinates faceData) /\
     0 <= Box.y (FaceData.coordinates faceData) /\
     Box.x (FaceData.coordinates faceData)
       + Box.width (FaceData.coordinates faceData) <= Image.width image /\
     Box.y (FaceData.coordinates faceData)
       + Box.height (FaceData.coordinates faceData) <= Image.height image).
Proof.
  unfold extractAndSaveFace, fs_writeFileSync, mbind, mret, M_bind, M_ret.
  destruct (writable env _) eqn:W; intros [= <- <-]; split;
    try (intros ? [=]; fail).
  - intros faceData [= <-].
    cbn [FaceData.filename FaceData.path FaceData.detectionScore
         FaceData.coordinates].
    rewrite calculateZoomedOutBox_axes.
    cbn [Box.x Box.y Box.width Box.height].
    match goal with
    | |- context [axisExtent ?x ?wd ?z (Image.width image)] =>
        destruct (axis_inside x wd z (Image.width image)) as [Hx Hxw]
    end.
    match goal with
    | |- context [axisExtent ?y ?h ?z (Image.height image)] =>
        destruct (axis_inside y h z (Image.height image)) as [Hy Hyh]
    end.
    split_ands; try reflexivity; try assumption.
    + apply lookup_written.
    + intros p Hp. apply lookup_written_ne. congruence.
  - intros e _. reflexivity.
Qed.

End PipelineExtras.

(** ** The command line *)

Section MainExtras.

Variable cfg : Config.
Variable env : Env.
Variable host : Host.

Lemma createTimestampedDirectory_keeps (p p' : Process) (res : Error + string) :
  createTimestampedDirectory env host p = (res, p') ->
  world p' = world p /\ stdout p' = stdout p /\ stderr p' = stderr p /\
  exitCode p' = exitCode p /\
  (forall d, res = inr d -> path_exists d p = false ->
     d ∈ directories p').
Proof.
  unfold createTimestampedDirectory. cbv zeta.
  set (outputDir := path_join env (baseOutputDir env host) _).
  destruct (path_exists outputDir p) eqn:E; cbn [negb].
  - intros [= <- <-]. split_ands; try reflexivity.
    intros d [= <-] F. congruence.
  - destruct (mkdir_ok host outputDir); intros [= <- <-];
      cbn [world stdout stderr exitCode directories]; split_ands;
      try reflexivity; try (intros; discriminate).
    intros d [= <-] _. set_solver.
Qed.

Lemma runVerification_inl_no_new_report ref qry od w e w' :
  runVerification cfg env ref qry od w = (inl e, w') -> no_new_report w w'.
Proof.
  intros R.
  pose proof (runVerification_outcome cfg env ref qry od w) as O.
  rewrite R in O. inversion O; subst; try assumption;
    unfold detected;
    repeat first
      [ apply no_new_report_refl
      | eapply no_new_report_trans; [|apply no_new_report_log] ].
Qed.

(** X23. [main] ends in one of two ways.  Either it exits with code [1],
    having printed exactly one line to [stderr] and nothing to [stdout];
    or it ends without an exit code, having printed nothing to [stderr]
    and ten lines to [stdout], the last of which is [VERIFIED] or
    [REJECTED].  With fewer than two arguments it is the first, the line is
    the usage line, and neither a directory nor a file was touched. *)
Theorem main_exit (args : list string) (p : Process) :
  exitCode p = None ->
  let p' := main cfg env host args p in
  ((exitCode p' = Some 1%Z /\ stdout p' = stdout p /\
    exists line, stderr p' = stderr p ++ [line])
   \/
   (exitCode p' = None /\ stderr p' = stderr p /\
    exists lines verdict,
      stdout p' = stdout p ++ lines ++ [verdict] /\
      length lines = 9%nat /\
      (verdict = "VERIFIED" \/ verdict = "REJECTED"))) /\
  ((length args < 2)%nat ->
     exitCode p' = Some 1%Z /\
     stderr p'
     = stderr p ++ ["Usage: node verify.js <reference_image> <query_image>"] /\
     world p' = world p /\ directories p' = directories p).
Proof.
  intros Hx p'. subst p'. unfold main.
  destruct (length args <? 2)%nat eqn:L.
  { split; [left|intros _]; cbn; split_ands; eauto. }
  apply Nat.ltb_ge in L. split; [|intros; lia].
  destruct (createTimestampedDirectory env host p) as [[e|od] p1] eqn:C;
    apply createTimestampedDirectory_keeps in C;
    destruct C as (Hw & Ho & He & Hc & _).
  { left. cbn. rewrite Ho, He. split_ands; eauto. }
  destruct (loadModels env host) as [e|[]].
  { left. cbn. rewrite Ho, He. split_ands; eauto. }
  destruct (runVerification cfg env _ _ od (world p1)) as [[e|result] w'].
  { left. cbn. rewrite Ho, He. split_ands; eauto. }
  right.
  destruct (Verification.isMatch result); cbn; rewrite Ho, He, Hc;
    (split; [exact Hx|]); (split; [reflexivity|]);
    repeat rewrite <- app_assoc; cbn [app];
    eexists [_; _; _; _; _; _; _; _; _], _;
    (split; [reflexivity|]); split; auto.
Qed.

(** X24. When [main] ends without an exit code, the verdict it printed
    last is the [status] of the report it stored, the report is in the
    file named on the [Report:] line, and the [isMatch] of that report
    tells which of the two verdicts it is. *)
Theorem main_verdict_is_report_status (args : list string) (p : Process) :
  exitCode p = None ->
  exitCode (main cfg env host args p) = None ->
  exists reportPath report,
    files (world (main cfg env host args p)) !! reportPath
    = Some (JsonFile report) /\
    In ("Report: " +:+ reportPath) (stdout (main cfg env host args p)) /\
    List.last (stdout (main cfg env host args p)) ""
    = Result.status (Report.result report) /\
    (Result.isMatch (Report.result report) = true ->
       List.last (stdout (main cfg env host args p)) "" = "VERIFIED") /\
    (Result.isMatch (Report.result report) = false ->
       List.last (stdout (main cfg env host args p)) "" = "REJECTED").
Proof.
  intros Hx. unfold main.
  destruct (length args <? 2)%nat; [discriminate|].
  destruct (createTimestampedDirectory env host p) as [[e|od] p1] eqn:C;
    [discriminate|].
  destruct (loadModels env host) as [e|[]]; [discriminate|].
  destruct (runVerification cfg env _ _ od (world p1)) as [[e|result] w']
    eqn:R; [discriminate|].
  intros _.
  apply runVerification_inr_inv in R.
  destruct R as (ri & qi & rr & qr & report & _ & Hg & _ & _ & _ & _ & _ & _
                 & _ & _ & _ & ->).
  apply generateVerificationReport_inv in Hg. destruct Hg as (Hres & _).
  exists (Verification.reportPath result), report.
  rewrite Hres. cbn [Result.status Result.isMatch].
  destruct (Verification.isMatch result); cbn [world with_world console_log];
    (split; [apply lookup_written|]);
    (split; [cbn [stdout console_log with_world];
             rewrite !in_app_iff; cbn [In]; tauto|]);
    cbn [stdout console_log with_world]; rewrite !List.last_last;
    split_ands; try reflexivity; intros; congruence.
Qed.

(** X25. When the pipeline throws, [main] prints [Error: <message>] to
    [stderr] and exits with code [1]; the output directory it made for the
    run stays behind, and no report file was added. *)
Theorem main_failed_run (args : list string) (p p1 : Process)
    (outputDir : string) (e : Error) (w' : World) :
  (2 <= length args)%nat ->
  createTimestampedDirectory env host p = (inr outputDir, p1) ->
  loadModels env host = inr tt ->
  runVerification cfg env
    (path_join env (path_join env (__dirname host) "images") (nth 0 args ""))
    (path_join env (path_join env (__dirname host) "images") (nth 1 args ""))
    outputDir (world p1) = (inl e, w') ->
  let p' := main cfg env host args p in
  exitCode p' = Some 1%Z /\
  stderr p' = stderr p ++ ["Error: " +:+ message env e] /\
  stdout p' = stdout p /\
  (path_exists outputDir p = false -> outputDir ∈ directories p') /\
  no_new_report (world p) (world p').
Proof.
  intros L C M R p'. subst p'. unfold main.
  apply Nat.ltb_ge in L. rewrite L, C, M, R.
  pose proof (createTimestampedDirectory_keeps _ _ _ C)
    as (Hw & Ho & He & _ & Hd).
  apply runVerification_inl_no_new_report in R. rewrite Hw in R.
  cbn. rewrite Ho, He. split_ands; auto.
Qed.

(** X26. When a model fails to load, [main] exits with code [1] before the
    pipeline starts: no image is loaded and no file is written. *)
Theorem main_models_missing (args : list string) (p : Process) (m : string) :
  (2 <= length args)%nat ->
  loadModels env host = inl (CollaboratorError m) ->
  let p' := main cfg env host args p in
  exitCode p' = Some 1%Z /\ world p' = world p /\ stdout p' = stdout p /\
  (forall outputDir p1,
     createTimestampedDirectory env host p = (inr outputDir, p1) ->
     stderr p' = stderr p ++ ["Error: " +:+ m]).
Proof.
  intros L M p'. subst p'. unfold main.
  apply Nat.ltb_ge in L. rewrite L, M.
  destruct (createTimestampedDirectory env host p) as [[e|od] p1] eqn:C;
    apply createTimestampedDirectory_keeps in C;
    destruct C as (Hw & Ho & He & _ & _); cbn; rewrite ?Hw, ?Ho, ?He;
    split_ands; auto; intros ? ? [=]; subst; cbn; rewrite ?He; reflexivity.
Qed.

End MainExtras.

(** ** The sample run, continued *)

Lemma sampleGates :
  GatesPassed CONFIG sampleEnv sampleWorld "a.jpg" "b.jpg"
    (sampleImage "alice") (sampleImage "bob")
    (sampleFace "alice") (sampleFace "bob").
Proof. split; reflexivity. Defined.

Lemma sampleGatesNoReport :
  GatesPassed CONFIG sampleEnvNoReport sampleWorld "a.jpg" "b.jpg"
    (sampleImage "alice") (sampleImage "bob")
    (sampleFace "alice") (sampleFace "bob").
Proof. split; reflexivity. Defined.

Lemma runVerification_returns_witness :
  exists out w' report,
    runVerification CONFIG sampleEnv "a.jpg" "b.jpg" "out" sampleWorld
    = (inr out, w') /\
    Verification.reportPath out = "out/verify_1705311845123.json" /\
    files w' !! Verification.reportPath out = Some (JsonFile report).
Proof.
  destruct (runVerification_returns CONFIG sampleEnv "a.jpg" "b.jpg" "out"
              sampleWorld _ _ _ _ sampleGates)
    as (out & w' & report & R & P & F & _).
  - repeat constructor.
  - reflexivity.
  - exists out, w', report. split; [exact R|]. split; [exact P | exact F].
Defined.

Lemma runVerification_event_order_witness :
  exists referenceImage queryImage,
    events (snd sampleRun) =
      [ LoadImage "a.jpg"; LoadImage "b.jpg";
        DetectSingleFace referenceImage; DetectSingleFace queryImage;
        WriteFile "out/face_reference.jpg"; WriteFile "out/face_query.jpg";
        WriteFile "out/reference_detection.jpg";
        WriteFile "out/query_detection.jpg";
        WriteFile "out/verify_1705311845123.json" ].
Proof.
  destruct (runVerification_event_order CONFIG sampleEnv "a.jpg" "b.jpg" "out"
              sampleWorld (snd sampleRun) sampleVerification sampleRun_returns)
    as (ri & qi & _ & _ & E).
  exists ri, qi. exact E.
Defined.

Lemma runVerification_frame_witness :
  files (snd sampleRun) !! "c.jpg" = files sampleWorld !! "c.jpg" /\
  clock (snd sampleRun) = clock sampleWorld.
Proof.
  destruct (runVerification_frame CONFIG sampleEnv "a.jpg" "b.jpg" "out"
              sampleWorld _ _ (surjective_pairing _)) as (C & _ & F).
  split; [|exact C].
  apply F.
  - unfold artifactPaths. rewrite !not_elem_of_cons.
    split_ands; try (intros E; vm_compute in E; discriminate E).
    apply not_elem_of_nil.
  - intros E; vm_compute in E; discriminate E.
Defined.

Lemma runVerification_report_write_fails_witness :
  exists w',
    runVerification CONFIG sampleEnvNoReport "a.jpg" "b.jpg" "out" sampleWorld
    = (inl (CollaboratorError "EACCES: out/verify_1705311845123.json"), w') /\
    is_Some (files w' !! "out/face_reference.jpg") /\
    no_new_report sampleWorld w'.
Proof.
  destruct (runVerification_report_write_fails CONFIG sampleEnvNoReport
              "a.jpg" "b.jpg" "out" sampleWorld _ _ _ _ sampleGatesNoReport)
    as (w' & R & A & N).
  - repeat constructor.
  - reflexivity.
  - exists w'. split; [exact R|]. split; [|exact N].
    apply A. unfold artifactPaths. apply elem_of_cons. left. reflexivity.
Defined.

Lemma runVerification_reference_not_found_witness :
  runVerification CONFIG sampleEnv "missing.jpg" "b.jpg" "out" sampleWorld
  = (inl (ReferenceImageNotFound "missing.jpg"), sampleWorld).
Proof.
  apply (runVerification_reference_not_found CONFIG sampleEnv).
  reflexivity.
Defined.

Lemma runVerification_no_face_witness :
  exists w',
    runVerification CONFIG sampleEnv "a.jpg" "d.jpg" "out" sampleWorld
    = (inl NoFaceInQuery, w') /\
    files w' = files sampleWorld.
Proof.
  destruct (runVerification_no_face CONFIG sampleEnv "a.jpg" "d.jpg" "out"
              sampleWorld (sampleImage "alice") (sampleImage "blank")
              eq_refl eq_refl (or_intror eq_refl))
    as (e & w' & R & _ & Q & F & _).
  exists w'. rewrite <- (Q ltac:(discriminate)). split; [exact R | exact F].
Defined.

Lemma runVerification_reference_unreadable_witness :
  fst (runVerification CONFIG sampleEnv "out/verify_1705311845123.json"
         "a.jpg" "out2" (snd sampleRun))
  = inl (CollaboratorError "Unsupported image type").
Proof.
  destruct (runVerification_reference_unreadable CONFIG sampleEnv
              "out/verify_1705311845123.json" "a.jpg" "out2" (snd sampleRun)
              (CollaboratorError "Unsupported image type")) as [R _].
  - vm_compute. discriminate.
  - vm_compute. discriminate.
  - vm_compute. reflexivity.
  - rewrite R. reflexivity.
Defined.

Lemma runVerification_report_coordinates_witness :
  exists report,
    files (snd sampleRun) !! "out/verify_1705311845123.json"
    = Some (JsonFile report) /\
    Box.x (ImageSection.coordinates (Report.referenceImage report))
    + Box.width (ImageSection.coordinates (Report.referenceImage report))
    <= Dimensions.width
         (ImageSection.imageDimensions (Report.referenceImage report)).
Proof.
  destruct (runVerification_report_coordinates CONFIG sampleEnv
              "a.jpg" "b.jpg" "out" sampleWorld (snd sampleRun)
              sampleVerification sampleRun_returns) as (report & F & H).
  exists report. split; [exact F|].
  exact (proj1 (proj2 (proj2 (proj2 (H _ (or_introl eq_refl)))))).
Defined.

Lemma runVerification_report_consistent_witness :
  exists report,
    files (snd sampleRun) !! "out/verify_1705311845123.json"
    = Some (JsonFile report) /\
    Result.isMatch (Report.result report) = false /\
    ImageSection.filename (Report.referenceImage report) = "a.jpg".
Proof.
  destruct (runVerification_report_consistent CONFIG sampleEnv
              "a.jpg" "b.jpg" "out" sampleWorld (snd sampleRun)
              sampleVerification sampleRun_returns)
    as (report & F & _ & _ & M & _ & _ & _ & _ & _ & N & _).
  exists report. split; [exact F|]. split; [exact M | exact N].
Defined.

Lemma runVerification_match_iff_confident_witness :
  Verification.isMatch sampleVerification = true
  <-> 0 < Verification.confidence sampleVerification.
Proof.
  apply (runVerification_match_iff_confident CONFIG sampleEnv
           "a.jpg" "b.jpg" "out" sampleWorld (snd sampleRun)).
  - reflexivity.
  - exact sampleRun_returns.
Defined.

Lemma extractAndSaveFace_spec_witness :
  exists faceData,
    fst (extractAndSaveFace CONFIG sampleEnv (sampleImage "alice")
           (sampleFace "alice") "reference" "out" sampleWorld)
    = inr faceData /\
    FaceData.filename faceData = "face_reference.jpg".
Proof.
  destruct (extractAndSaveFace_spec CONFIG sampleEnv (sampleImage "alice")
              (sampleFace "alice") "reference" "out" sampleWorld _ _
              (surjective_pairing _)) as (_ & S).
  eexists. split; [vm_compute; reflexivity|].
  exact (proj1 (S _ eq_refl)).
Defined.

Lemma main_exit_witness :
  exitCode (main CONFIG sampleEnv sampleHost ["a.jpg"] sampleProcess)
  = Some 1%Z /\
  world (main CONFIG sampleEnv sampleHost ["a.jpg"] sampleProcess)
  = world sampleProcess.
Proof.
  destruct (main_exit CONFIG sampleEnv sampleHost ["a.jpg"] sampleProcess
              eq_refl) as (_ & U).
  destruct (U ltac:(cbn; lia)) as (X & _ & W & _).
  split; [exact X | exact W].
Defined.

Lemma main_verdict_is_report_status_witness :
  exists reportPath report,
    files (world (main CONFIG sampleEnv sampleHost ["a.jpg"; "b.jpg"]
                    sampleProcess)) !! reportPath
    = Some (JsonFile report) /\
    Result.status (Report.result report) = "REJECTED".
Proof.
  destruct (main_verdict_is_report_status CONFIG sampleEnv sampleHost
              ["a.jpg"; "b.jpg"] sampleProcess eq_refl)
    as (path & report & F & _ & L & _).
  - vm_compute. reflexivity.
  - exists path, report. split; [exact F|]. rewrite <- L.
    vm_compute. reflexivity.
Defined.

Lemma main_failed_run_witness :
  let p' := main CONFIG sampleEnv sampleHost ["c.jpg"; "b.jpg"] sampleProcess in
  exitCode p' = Some 1%Z /\
  "/app/verification_reports/2024-01-15T10-30-45-123Z" ∈ directories p' /\
  no_new_report (world sampleProcess) (world p').
Proof.
  destruct (main_failed_run CONFIG sampleEnv sampleHost ["c.jpg"; "b.jpg"]
              sampleProcess
              (snd (createTimestampedDirectory sampleEnv sampleHost
                      sampleProcess))
              "/app/verification_reports/2024-01-15T10-30-45-123Z"
              (LowScoreReference (65 # 100))
              (snd (runVerification CONFIG sampleEnv "/app/images/c.jpg"
                      "/app/images/b.jpg"
                      "/app/verification_reports/2024-01-15T10-30-45-123Z"
                      (world sampleProcess))))
    as (X & _ & _ & D & N).
  - cbn. lia.
  - vm_compute. reflexivity.
  - reflexivity.
  - vm_compute. reflexivity.
  - split; [exact X|]. split; [|exact N]. apply D. vm_compute. reflexivity.
Defined.

Lemma main_models_missing_witness :
  let p' :=
    main CONFIG sampleEnv sampleHostNoModels ["a.jpg"; "b.jpg"] sampleProcess in
  exitCode p' = Some 1%Z /\ world p' = world sampleProcess.
Proof.
  destruct (main_models_missing CONFIG sampleEnv sampleHostNoModels
              ["a.jpg"; "b.jpg"] sampleProcess "ENOENT: /app/models")
    as (X & W & _).
  - cbn. lia.
  - reflexivity.
  - split; [exact X | exact W].
Defined.
